(** * The order-book reducer (src/state/reducers/orderBook.reducer.ts)

    A shallow embedding of the Redux reducer that aggregates the two sides of
    an order book, followed by theorems about it.

    Modelling choices.
    - A TypeScript [number] is an IEEE-754 binary64 value. A price, size or
      total is the integer [Z] that counts it in a fixed unit, a power of two;
      with the unit 2^-1074, the smallest positive double, every finite double
      is such a count, and the examples below simply take the unit 1.
      Comparisons, [=== 0], [Math.max] and [Math.min] of doubles are exact, and
      so is the sign of a difference. A sum is not: [+] on doubles is the
      exact sum rounded to 53 significant bits, ties to even, whatever the
      unit, and that is how [Js.number_add] adds. Overflow to [Infinity] and
      [NaN] are outside the model. Cursors and map sizes are integers.
    - A JS [Map] keeps its entries in insertion order; [set] on a key that is
      present overwrites the value where it stands, [set] on a new key appends.
      It is an association list, see [Js.JsMap].
    - [Array.prototype.sort] with a comparator is stable; it is modelled by a
      stable insertion sort driven by the sign of the comparator.
    - A thrown exception is the [Throw] case of [Js.result]. *)

From Stdlib Require Import ZArith List String Bool Lia.
From Stdlib Require Import Sorting.Sorted Sorting.Permutation.
Import ListNotations.
Local Open Scope Z_scope.

(** ** JavaScript primitives the reducer relies on *)

Module Js.

Inductive JsError : Type :=
| AssertionError
| TypeError.

Inductive result (A : Type) : Type :=
| Ok (a : A)
| Throw (e : JsError).
Arguments Ok {A} a.
Arguments Throw {A} e.

Definition bind {A B : Type} (c : result A) (k : A -> result B) : result B :=
  match c with
  | Ok a => k a
  | Throw e => Throw e
  end.

(** [Map<number, V>]: entries in insertion order. A map built with
    [new Map], [set] and [delete] never holds a key twice. *)
Definition JsMap (V : Type) : Type := list (Z * V).

Definition map_new {V : Type} : JsMap V := [].

Fixpoint map_set {V : Type} (k : Z) (v : V) (m : JsMap V) : JsMap V :=
  match m with
  | [] => [(k, v)]
  | (k', v') :: m' =>
      if k' =? k then (k', v) :: m' else (k', v') :: map_set k v m'
  end.

Fixpoint map_delete {V : Type} (k : Z) (m : JsMap V) : JsMap V :=
  match m with
  | [] => []
  | (k', v') :: m' =>
      if k' =? k then map_delete k m' else (k', v') :: map_delete k m'
  end.

Definition map_has {V : Type} (k : Z) (m : JsMap V) : bool :=
  existsb (fun e => fst e =? k) m.

Definition map_size {V : Type} (m : JsMap V) : Z := Z.of_nat (List.length m).

(** [Array.from(m.values())] and [Array.from(m.entries())] *)
Definition map_values {V : Type} (m : JsMap V) : list V := List.map snd m.
Definition map_entries {V : Type} (m : JsMap V) : list (Z * V) := m.
Definition map_keys {V : Type} (m : JsMap V) : list Z := List.map fst m.

(** [arr[i]] for an integer [i]: [undefined] (here [None]) out of range,
    negative indices included. *)
Definition array_get {A : Type} (arr : list A) (i : Z) : option A :=
  if i <? 0 then None else nth_error arr (Z.to_nat i).

(** Rounding to the nearest binary64 value, ties to even: a number of at most
    53 bits is kept; of a longer one the 53 leading bits stay and the rest
    rounds them up or not. *)
Definition roundDouble (z : Z) : Z :=
  let a := Z.abs z in
  let e := Z.log2 a - 52 in
  if e <=? 0 then z
  else
    let q := Z.shiftr a e in
    let r := Z.land a (Z.ones e) in
    let half := Z.shiftl 1 (e - 1) in
    let q' := if (half <? r) || ((r =? half) && Z.odd q) then q + 1 else q in
    Z.sgn z * Z.shiftl q' e.

(** [a + b] on numbers *)
Definition number_add (a b : Z) : Z := roundDouble (a + b).

Arguments roundDouble : simpl never.
Arguments number_add : simpl never.

(** [arr.sort(cmp)]: [x] goes before [y] when [cmp x y <= 0]; elements that
    compare equal keep their order. *)
Fixpoint sort_insert {A : Type} (cmp : A -> A -> Z) (x : A) (l : list A)
  : list A :=
  match l with
  | [] => [x]
  | y :: l' =>
      if cmp x y <=? 0 then x :: y :: l' else y :: sort_insert cmp x l'
  end.

Definition array_sort {A : Type} (cmp : A -> A -> Z) (l : list A) : list A :=
  fold_right (sort_insert cmp) [] l.

End Js.
Import Js.

Notation "x <- c ;; k" := (bind c (fun x => k))
  (at level 61, c at next level, right associativity).

(** ** Types (orderBook.reducer.ts, lines 16-60) *)

(** [Price], [Size] and [Total] are branded [number]s. *)
Abbreviation Price := Z (only parsing).
Abbreviation Size := Z (only parsing).
Abbreviation Total := Z (only parsing).
Definition ProductId := string.

Record RawDetails : Type := mkRaw {
  raw_price : Price;
  raw_size : Size
}.

Record CalculatedOrderDetails : Type := mkCalculated {
  price : Price;
  size : Size;
  total : Total
}.

(** [type OrderDetails = RawDetails | CalculatedOrderDetails], told apart by
    the [type] tag of each object. *)
Inductive OrderDetails : Type :=
| Raw (r : RawDetails)
| Calculated (c : CalculatedOrderDetails).

(** [value.size] on either variant *)
Definition od_size (v : OrderDetails) : Size :=
  match v with
  | Raw r => raw_size r
  | Calculated c => size c
  end.

Record MaxTotal : Type := mkMaxTotal {
  lastVisibleAsksIndex : Z;
  lastVisibleBidsIndex : Z;
  totalValue : Z
}.

(** The fields shared by [Connected] and [Disconnected] *)
Record Book : Type := mkBook {
  asks : JsMap CalculatedOrderDetails;
  bids : JsMap CalculatedOrderDetails;
  productId : ProductId;
  numLevels : Z;
  maxTotal : MaxTotal
}.

Inductive OrderBookState : Type :=
| NeverLoaded
| ConnectedWaitingForData
| Connected (b : Book)
| Disconnected (b : Book).

Definition initialState : OrderBookState := NeverLoaded.

(** ** What the reducer imports *)

(** Modelled from the spec: the payloads of the actions are declared in
    [state/actions/orderBook.actions], which is not part of the sources.
    Section 6 of the spec gives [SnapshotReceived] a product id, a display
    depth and one list of (price, size) pairs per side, and the delta event
    one list of pairs per side; the reducer reads exactly these fields. *)
Record SnapshotPayload : Type := mkSnapshot {
  product_id : ProductId;
  snap_numLevels : Z;
  snap_asks : list (Price * Size);
  snap_bids : list (Price * Size)
}.

Record DataUpdatePayload : Type := mkDelta {
  upd_asks : list (Price * Size);
  upd_bids : list (Price * Size)
}.

(** [OtherAction] stands for every action whose [type] is none of the eleven
    that the [switch] of the reducer names: Redux hands each dispatched action,
    its own initialisation action included, to the reducer. *)
Inductive OrderBookActions : Type :=
| OpenStream
| CloseStream
| SnapshotReceived (payload : SnapshotPayload)
| DataUpdate (payload : DataUpdatePayload)
| SocketConnected
| SocketDisconnected
| UpdateBidsLastVisibleIndex (index : Z)
| UpdateAsksLastVisibleIndex (index : Z)
| UnsupportedBackendResponse
| InfoReceived
| SubscribeConfirmationReceived
| OtherAction.

(** Modelled from the spec: [assert] of [types/util.types], which is not part
    of the sources. The spec calls a failed precondition an assert-fail that
    is surfaced as an explicit error and aborts the transition; a call with a
    true condition returns. *)
Definition assert (cond : bool) : result unit :=
  if cond then Ok tt else Throw AssertionError.

(** Modelled from the spec: [asNumber] and [asTotal] of [types/util.types],
    not part of the sources; they move a number between the branded types
    [Size], [Total] and [number] and leave its value alone. *)
Definition asNumber (s : Size) : Z := s.
Definition asTotal (n : Z) : Total := n.

(** ** The reducer *)

Record Acc : Type := mkAcc {
  acc_total : Z;
  acc_map : JsMap CalculatedOrderDetails
}.

(** lines 62-79 *)
Definition generateCalculatedOrderDetails (acc : Acc) (e : Price * Size) : Acc :=
  let '(price, size) := e in
  if size =? 0 then acc
  else
    let t := number_add (acc_total acc) (asNumber size) in
    mkAcc t (map_set price (mkCalculated price size (asTotal t)) (acc_map acc)).

(** lines 81-98 *)
Definition generateCalculatedOrderDetailsFromExisting
    (acc : Acc) (e : Price * OrderDetails) : Acc :=
  let '(price, value) := e in
  if od_size value =? 0 then acc
  else
    let t := number_add (acc_total acc) (asNumber (od_size value)) in
    mkAcc t
      (map_set price (mkCalculated price (od_size value) (asTotal t)) (acc_map acc)).

(** The two comparators handed to [sort]: [priceA - priceB] for asks,
    [priceB - priceA] for bids. [sort] reads the sign of the result only, and
    the difference of two doubles has the sign of their exact difference. *)
Definition byPriceAsc {V : Type} (a b : Price * V) : Z := fst a - fst b.
Definition byPriceDesc {V : Type} (a b : Price * V) : Z := fst b - fst a.

(** lines 100-136 *)
Definition handleSnapshotReceived
    (payload : SnapshotPayload) (prevState : OrderBookState) : OrderBookState :=
  let accA :=
    fold_left generateCalculatedOrderDetails
      (array_sort byPriceAsc (snap_asks payload)) (mkAcc 0 map_new) in
  let asksTotal := acc_total accA in
  let asks := acc_map accA in
  let accB :=
    fold_left generateCalculatedOrderDetails
      (array_sort byPriceDesc (snap_bids payload)) (mkAcc 0 map_new) in
  let bidsTotal := acc_total accB in
  let bids := acc_map accB in
  Connected
    (mkBook asks bids (product_id payload) (snap_numLevels payload)
       (match prevState with
        | Connected prev =>
            mkMaxTotal (lastVisibleAsksIndex (maxTotal prev))
                       (lastVisibleBidsIndex (maxTotal prev))
                       (Z.max asksTotal bidsTotal)
        | _ =>
            mkMaxTotal (map_size asks - 1) (map_size bids - 1)
                       (Z.max asksTotal bidsTotal)
        end)).

Definition is_Connected (s : OrderBookState) : bool :=
  match s with
  | Connected _ => true
  | _ => false
  end.

(** [Array.from(m.values())[Math.min(index, m.size - 1)].total]: reading
    [.total] of [undefined] throws a [TypeError]. *)
Definition totalAt (m : JsMap CalculatedOrderDetails) (index : Z) : result Z :=
  match array_get (map_values m) (Z.min index (map_size m - 1)) with
  | Some level => Ok (total level)
  | None => Throw TypeError
  end.

(** [new Map<Price, OrderDetails>(prev)] *)
Definition map_copy (m : JsMap CalculatedOrderDetails) : JsMap OrderDetails :=
  List.map (fun e => (fst e, Calculated (snd e))) m.

(** The body of [payload.asks.forEach] (lines 146-153) *)
Definition mergeAsk (tmp : JsMap OrderDetails) (e : Price * Size)
  : JsMap OrderDetails :=
  let '(price, size) := e in
  if size =? 0 then map_delete price tmp
  else map_set price (Raw (mkRaw price size)) tmp.

(** The body of [payload.bids.forEach] (lines 164-170) *)
Definition mergeBid (tmp : JsMap OrderDetails) (e : Price * Size)
  : JsMap OrderDetails :=
  let '(price, size) := e in
  if size =? 0 then tmp
  else map_set price (Raw (mkRaw price size)) tmp.

(** lines 138-196 *)
Definition handleDataUpdate
    (payload : DataUpdatePayload) (prevState : OrderBookState)
  : result OrderBookState :=
  _ <- assert (is_Connected prevState) ;;
  match prevState with
  | Connected prev =>
      let asksTmp := fold_left mergeAsk (upd_asks payload) (map_copy (asks prev)) in
      let asks' :=
        acc_map
          (fold_left generateCalculatedOrderDetailsFromExisting
             (array_sort byPriceAsc (map_entries asksTmp)) (mkAcc 0 map_new)) in
      let bidsTmp := fold_left mergeBid (upd_bids payload) (map_copy (bids prev)) in
      let bids' :=
        acc_map
          (fold_left generateCalculatedOrderDetailsFromExisting
             (array_sort byPriceDesc (map_entries bidsTmp)) (mkAcc 0 map_new)) in
      tb <- totalAt bids' (lastVisibleBidsIndex (maxTotal prev)) ;;
      ta <- totalAt asks' (lastVisibleAsksIndex (maxTotal prev)) ;;
      Ok (Connected
            (mkBook asks' bids' (productId prev) (numLevels prev)
               (mkMaxTotal (lastVisibleAsksIndex (maxTotal prev))
                           (lastVisibleBidsIndex (maxTotal prev))
                           (Z.max tb ta))))
  | _ => Throw AssertionError
  end.

(** lines 224-242 *)
Definition handleLastVisibleItemIndexChange
    (bidsIndex asksIndex : Z) (prevState : Book) : result OrderBookState :=
  tb <- totalAt (bids prevState) bidsIndex ;;
  ta <- totalAt (asks prevState) asksIndex ;;
  Ok (Connected
        (mkBook (asks prevState) (bids prevState)
           (productId prevState) (numLevels prevState)
           (mkMaxTotal asksIndex bidsIndex (Z.max tb ta)))).

(** lines 198-209 *)
Definition handleUpdateLastVisibleBidsIndexChange
    (bidsIndex : Z) (prevState : OrderBookState) : result OrderBookState :=
  _ <- assert (is_Connected prevState) ;;
  match prevState with
  | Connected prev =>
      handleLastVisibleItemIndexChange
        bidsIndex (lastVisibleAsksIndex (maxTotal prev)) prev
  | _ => Throw AssertionError
  end.

(** lines 211-222 *)
Definition handleUpdateLastVisibleAsksIndexChange
    (asksIndex : Z) (prevState : OrderBookState) : result OrderBookState :=
  _ <- assert (is_Connected prevState) ;;
  match prevState with
  | Connected prev =>
      handleLastVisibleItemIndexChange
        (lastVisibleBidsIndex (maxTotal prev)) asksIndex prev
  | _ => Throw AssertionError
  end.

(** What a handler returns, as the value of a [case] of the [switch] *)
Definition returned (r : result OrderBookState) : result (option OrderBookState) :=
  s <- r ;; Ok (Some s).

(** lines 244-278. The [switch] has no [default]: for an action it does not
    name the function returns [undefined], here [None]. *)
Definition _orderBookReducer
    (previousState : OrderBookState) (action : OrderBookActions)
  : result (option OrderBookState) :=
  match action with
  | OpenStream => Ok (Some previousState)
  | CloseStream => Ok (Some previousState)
  | SnapshotReceived payload =>
      Ok (Some (handleSnapshotReceived payload previousState))
  | DataUpdate payload => returned (handleDataUpdate payload previousState)
  | SocketConnected | SocketDisconnected => Ok (Some previousState)
  | UpdateBidsLastVisibleIndex index =>
      returned (handleUpdateLastVisibleBidsIndexChange index previousState)
  | UpdateAsksLastVisibleIndex index =>
      returned (handleUpdateLastVisibleAsksIndexChange index previousState)
  | UnsupportedBackendResponse | InfoReceived | SubscribeConfirmationReceived =>
      Ok (Some previousState)
  | OtherAction => Ok None
  end.

(** lines 280-283: an absent previous state stands for [initialState], and
    [?? initialState] puts [initialState] in the place of [undefined]. *)
Definition orderBookReducer
    (previousState : option OrderBookState) (action : OrderBookActions)
  : result OrderBookState :=
  r <- _orderBookReducer
         (match previousState with Some s => s | None => initialState end)
         action ;;
  Ok (match r with Some s => s | None => initialState end).

(** Dispatching a list of actions in turn, starting from [s]; the first
    exception ends the run. *)
Fixpoint dispatchAll (s : OrderBookState) (actions : list OrderBookActions)
  : result OrderBookState :=
  match actions with
  | [] => Ok s
  | a :: rest => s' <- orderBookReducer (Some s) a ;; dispatchAll s' rest
  end.

(** ** Notions used to state the properties *)

(** The (price, size) pairs a collection holds, in its own order *)
Definition ownPairs (m : JsMap CalculatedOrderDetails) : list (Price * Size) :=
  List.map (fun level => (price level, size level)) (map_values m).

(** The sum of the sizes of [levels], added to [t] one by one from the first
    level on, the way the code adds *)
Definition sumSizesFrom (t : Z) (levels : list CalculatedOrderDetails) : Z :=
  fold_left (fun t level => number_add t (size level)) levels t.

(** Every level's total is the prefix sum of the sizes in the order of the
    collection: the sum, taken from 0 and from the first level on, of the
    sizes up to and including its own. *)
Definition totalsArePrefixSums (levels : list CalculatedOrderDetails) : Prop :=
  forall (i : nat) (level : CalculatedOrderDetails),
    nth_error levels i = Some level ->
    total level = sumSizesFrom 0 (firstn (S i) levels).

Definition nonZero (e : Price * Size) : bool := negb (snd e =? 0).

(** The running-sum construction the aggregator is meant to perform on a
    list of pairs that is already in traversal order: pairs of size 0 are
    skipped, every other pair yields a level whose total is the sum so far. *)
Fixpoint runningLevels (t : Z) (l : list (Price * Size))
  : JsMap CalculatedOrderDetails :=
  match l with
  | [] => []
  | (p, s) :: l' =>
      if s =? 0 then runningLevels t l'
      else
        (p, mkCalculated p s (number_add t s))
          :: runningLevels (number_add t s) l'
  end.

(** A collection as the aggregator leaves it: every entry is keyed by its
    level's price, holds a size other than 0 and a total that continues the
    running sum [t]. *)
Fixpoint runningFrom (t : Z) (m : JsMap CalculatedOrderDetails) : Prop :=
  match m with
  | [] => True
  | (k, level) :: m' =>
      price level = k /\ size level <> 0
      /\ total level = number_add t (size level)
      /\ runningFrom (total level) m'
  end.

Definition wellFormedAsks (m : JsMap CalculatedOrderDetails) : Prop :=
  StronglySorted Z.lt (map_keys m) /\ runningFrom 0 m.

Definition wellFormedBids (m : JsMap CalculatedOrderDetails) : Prop :=
  StronglySorted Z.gt (map_keys m) /\ runningFrom 0 m.

(** What sort-and-sum correctness asks of the collection [m] aggregated from
    [input], for a side whose canonical order is [R]: the levels are in
    strict [R] order of price, each total is the prefix sum of the sizes in
    that order, and the levels are the pairs of [input] whose size is not 0. *)
Definition aggregates (R : Z -> Z -> Prop) (input : list (Price * Size))
    (m : JsMap CalculatedOrderDetails) : Prop :=
  StronglySorted R (List.map price (map_values m))
  /\ totalsArePrefixSums (map_values m)
  /\ (forall p s, In (p, s) (ownPairs m) <-> In (p, s) input /\ s <> 0).

(** The scale value in the words of the spec (section 4.3): each cursor is
    clamped to [min(index, size - 1)], the total at that row is read, an
    empty side contributes 0, and the scale is the maximum of the two. *)
Definition clampedTotal (m : JsMap CalculatedOrderDetails) (index : Z) : Z :=
  match m with
  | [] => 0
  | _ =>
      match nth_error (map_values m) (Z.to_nat (Z.min index (map_size m - 1))) with
      | Some level => total level
      | None => 0
      end
  end.

Definition specScaleValue (b : Book) : Z :=
  Z.max (clampedTotal (asks b) (lastVisibleAsksIndex (maxTotal b)))
        (clampedTotal (bids b) (lastVisibleBidsIndex (maxTotal b))).

(** The projection of a working map on what the aggregator reads of it *)
Definition rawPairs (tmp : JsMap OrderDetails) : list (Price * Size) :=
  List.map (fun e => (fst e, od_size (snd e))) tmp.

(** ** Concrete inputs: the examples of the spec, section 8, and others *)

Definition snapshot8 : SnapshotPayload :=
  mkSnapshot "BTC-USD"%string 2 [(101, 2); (100, 3)] [(99, 1); (98, 4)].

Definition book8 : Book :=
  mkBook [(100, mkCalculated 100 3 3); (101, mkCalculated 101 2 5)]
         [(99, mkCalculated 99 1 1); (98, mkCalculated 98 4 5)]
         "BTC-USD"%string 2 (mkMaxTotal 1 1 5).

(** [book8] with both cursors on the first row *)
Definition book8_top : Book :=
  mkBook (asks book8) (bids book8) "BTC-USD"%string 2 (mkMaxTotal 0 0 3).

Definition emptySnapshot : SnapshotPayload :=
  mkSnapshot "BTC-USD"%string 2 [] [].

Definition emptyBook : Book :=
  mkBook [] [] "BTC-USD"%string 2 (mkMaxTotal (-1) (-1) 0).

(** A snapshot that names the price 100 twice on the asks side, and the book
    it yields from [NeverLoaded]: one ask of size 2 whose total is 5. *)
Definition repeatedPriceSnapshot : SnapshotPayload :=
  mkSnapshot "BTC-USD"%string 2 [(100, 3); (100, 2)] [(99, 1)].

Definition repeatedPriceBook : Book :=
  mkBook [(100, mkCalculated 100 2 5)] [(99, mkCalculated 99 1 1)]
         "BTC-USD"%string 2 (mkMaxTotal 0 0 5).

(** The delta that restates the pairs a book holds *)
Definition restate (b : Book) : DataUpdatePayload :=
  mkDelta (ownPairs (asks b)) (ownPairs (bids b)).

(** ** Notions used for the properties of whole runs and of the merge *)

(** [m.get(k)]: the value of the first (and, in a map, only) entry under [k] *)
Fixpoint map_get {V : Type} (k : Z) (m : JsMap V) : option V :=
  match m with
  | [] => None
  | (k', v) :: m' => if k' =? k then Some v else map_get k m'
  end.

(** The size a collection holds under a price, if any *)
Definition sizeAt (p : Price) (m : JsMap CalculatedOrderDetails) : option Size :=
  option_map size (map_get p m).

(** The size of the last pair of a delta list that names the price [p] *)
Fixpoint lastSize (p : Price) (delta : list (Price * Size)) : option Size :=
  match delta with
  | [] => None
  | (q, s) :: rest =>
      match lastSize p rest with
      | Some s' => Some s'
      | None => if q =? p then Some s else None
      end
  end.

(** Size a price ends up with once a delta list is laid over a collection:
    the last pair that names the price decides, else the stored size stays. *)
Definition mergedSize (p : Price) (delta : list (Price * Size))
    (m : JsMap CalculatedOrderDetails) : option Size :=
  match lastSize p delta with
  | Some s => Some s
  | None => sizeAt p m
  end.


(** The total the aggregator ends with on a list of pairs, from [t] on:
    pairs of size 0 are passed over, the other sizes are added one by one. *)
Definition grandTotal (t : Z) (l : list (Price * Size)) : Z :=
  fold_left (fun t e => if snd e =? 0 then t else number_add t (snd e)) l t.


(** The events the reducer answers with the state it was given *)
Definition isNoOp (a : OrderBookActions) : bool :=
  match a with
  | OpenStream | CloseStream | SocketConnected | SocketDisconnected
  | UnsupportedBackendResponse | InfoReceived | SubscribeConfirmationReceived =>
      true
  | _ => false
  end.


(** A collection that is a map (no key twice) whose every entry is keyed by
    the price of its level and holds a size other than 0. *)
Definition entriesSound (m : JsMap CalculatedOrderDetails) : Prop :=
  NoDup (map_keys m)
  /\ Forall (fun e => price (snd e) = fst e /\ size (snd e) <> 0) m.

Definition stateSound (s : OrderBookState) : Prop :=
  match s with
  | Connected b | Disconnected b => entriesSound (asks b) /\ entriesSound (bids b)
  | _ => True
  end.

Definition stateWellFormed (s : OrderBookState) : Prop :=
  match s with
  | Connected b | Disconnected b => wellFormedAsks (asks b) /\ wellFormedBids (bids b)
  | _ => True
  end.

(** A snapshot event names no price twice on either side; any other event
    passes. *)
Definition distinctPrices (a : OrderBookActions) : Prop :=
  match a with
  | SnapshotReceived payload =>
      NoDup (List.map fst (snap_asks payload))
      /\ NoDup (List.map fst (snap_bids payload))
  | _ => True
  end.

(** The collection a side comes to after a delta list: the merge loop on a
    copy of the stored map, then the pairs of the working map in canonical
    order, then the running sums. *)
Definition mergedAsks (delta : list (Price * Size))
    (m : JsMap CalculatedOrderDetails) : JsMap CalculatedOrderDetails :=
  runningLevels 0
    (array_sort byPriceAsc (rawPairs (fold_left mergeAsk delta (map_copy m)))).

Definition mergedBids (delta : list (Price * Size))
    (m : JsMap CalculatedOrderDetails) : JsMap CalculatedOrderDetails :=
  runningLevels 0
    (array_sort byPriceDesc (rawPairs (fold_left mergeBid delta (map_copy m)))).

(** A delta list leaves a side without a level: every price ends up with no
    size or with size 0. *)
Definition leavesNoLevel (delta : list (Price * Size))
    (m : JsMap CalculatedOrderDetails) : Prop :=
  forall p s, mergedSize p delta m = Some s -> s = 0.

(** A delta on the book of section 8 that removes an ask, names another ask
    twice, adds a bid and names a bid with size 0; and the book it yields. *)
Definition delta8 : DataUpdatePayload :=
  mkDelta [(100, 0); (102, 1); (102, 6)] [(97, 2); (99, 0)].

Definition book8_after : Book :=
  mkBook [(101, mkCalculated 101 2 2); (102, mkCalculated 102 6 8)]
         [(99, mkCalculated 99 1 1); (98, mkCalculated 98 4 5);
          (97, mkCalculated 97 2 7)]
         "BTC-USD"%string 2 (mkMaxTotal 1 1 8).

(** * Properties *)

(** Two tactics for concrete lists: the keys are pairwise distinct; the keys
    are in strict order. *)
Ltac distinct_keys :=
  simpl;
  repeat (constructor; [simpl; intuition discriminate |]);
  constructor.

Ltac strictly_sorted :=
  simpl; repeat (constructor; [| repeat constructor; lia]); constructor.

(** For a concrete collection: no key twice, every level under its own price
    with a size other than 0. *)
Ltac sound_entries :=
  split;
  [distinct_keys
  | repeat (constructor; [simpl; split; [reflexivity | lia] |]); constructor].

(** ** The examples of the spec *)

Example snapshot8_result :
  handleSnapshotReceived snapshot8 NeverLoaded = Connected book8.
Proof. reflexivity. Qed.

Example delta8_result :
  handleDataUpdate (mkDelta [(100, 0); (102, 1)] []) (Connected book8)
  = Ok (Connected
          (mkBook [(101, mkCalculated 101 2 2); (102, mkCalculated 102 1 3)]
                  (bids book8) "BTC-USD"%string 2 (mkMaxTotal 1 1 5))).
Proof. reflexivity. Qed.

(** ** Sums round as doubles do *)

Example number_add_rounds : number_add (2 ^ 53) 1 = 2 ^ 53.
Proof. reflexivity. Qed.

(** 0.1, 0.2 and 0.3 counted in units of 2^-56: added from the left they give
    0.6000000000000001, added from the right 0.6. *)
Example tenths_from_the_left :
  number_add
    (number_add (number_add 0 7205759403792794) 14411518807585588)
    21617278211378380
  = 43234556422756768.
Proof. reflexivity. Qed.

Example tenths_from_the_right :
  number_add
    (number_add (number_add 0 21617278211378380) 14411518807585588)
    7205759403792794
  = 43234556422756760.
Proof. reflexivity. Qed.

(** A size of 1 behind a size of 2^53 leaves the running total where it is. *)
Example snapshot_total_rounds :
  handleSnapshotReceived
    (mkSnapshot "BTC-USD"%string 2 [(2, 1); (1, 9007199254740992)] [])
    NeverLoaded
  = Connected
      (mkBook [(1, mkCalculated 1 9007199254740992 9007199254740992);
               (2, mkCalculated 2 1 9007199254740992)]
              [] "BTC-USD"%string 2 (mkMaxTotal 1 (-1) 9007199254740992)).
Proof. reflexivity. Qed.

(** ** The reducer, case by case *)

(** The reducer hands on what the handler of the action returns or throws,
    and answers an action it does not know with [initialState]. *)
Lemma reducer_cases (s : OrderBookState) (a : OrderBookActions) :
  orderBookReducer (Some s) a
  = match a with
    | SnapshotReceived payload => Ok (handleSnapshotReceived payload s)
    | DataUpdate payload => handleDataUpdate payload s
    | UpdateBidsLastVisibleIndex index =>
        handleUpdateLastVisibleBidsIndexChange index s
    | UpdateAsksLastVisibleIndex index =>
        handleUpdateLastVisibleAsksIndexChange index s
    | OtherAction => Ok initialState
    | _ => Ok s
    end.
Proof.
  unfold orderBookReducer, _orderBookReducer, returned.
  destruct a; try reflexivity.
  - destruct (handleDataUpdate payload s); reflexivity.
  - destruct (handleUpdateLastVisibleBidsIndexChange index s); reflexivity.
  - destruct (handleUpdateLastVisibleAsksIndexChange index s); reflexivity.
Qed.

(** ** Lifecycle guards *)

(** C7. From [NeverLoaded] or [ConnectedWaitingForData], a delta event and
    either cursor-update event throw the assertion error: no state is
    returned, changed or not. *)
Theorem delta_and_cursor_need_a_snapshot :
  forall s : OrderBookState,
    s = NeverLoaded \/ s = ConnectedWaitingForData ->
    (forall payload,
        orderBookReducer (Some s) (DataUpdate payload) = Throw AssertionError)
    /\ (forall index,
        orderBookReducer (Some s) (UpdateBidsLastVisibleIndex index)
        = Throw AssertionError)
    /\ (forall index,
        orderBookReducer (Some s) (UpdateAsksLastVisibleIndex index)
        = Throw AssertionError).
Proof.
  intros s [-> | ->]; repeat split; intros; reflexivity.
Qed.

Lemma delta_and_cursor_need_a_snapshot_witness :
  (NeverLoaded = NeverLoaded \/ NeverLoaded = ConnectedWaitingForData)
  /\ orderBookReducer (Some NeverLoaded) (DataUpdate (mkDelta [(100, 1)] []))
     = Throw AssertionError.
Proof.
  split.
  - left; reflexivity.
  - apply (delta_and_cursor_need_a_snapshot NeverLoaded (or_introl eq_refl)).
Defined.

(** The claim of C6 fails on a [Disconnected] copy of the book of section 8:
    neither a delta nor a cursor update yields a [Connected] state. *)
Lemma disconnected_delta_yields_no_state :
  ~ (exists b,
        orderBookReducer (Some (Disconnected book8)) (DataUpdate (mkDelta [(102, 1)] []))
        = Ok (Connected b))
  /\ ~ (exists b,
        orderBookReducer (Some (Disconnected book8)) (UpdateAsksLastVisibleIndex 0)
        = Ok (Connected b)).
Proof.
  split; intros [b H]; discriminate H.
Qed.

(** C6, amended. The handlers accept a delta or a cursor update from
    [Connected] only: from every [Disconnected] state each of the three events
    throws the assertion error. *)
Theorem disconnected_rejects_delta_and_cursor :
  forall (b : Book),
    (forall payload,
        orderBookReducer (Some (Disconnected b)) (DataUpdate payload)
        = Throw AssertionError)
    /\ (forall index,
        orderBookReducer (Some (Disconnected b)) (UpdateBidsLastVisibleIndex index)
        = Throw AssertionError)
    /\ (forall index,
        orderBookReducer (Some (Disconnected b)) (UpdateAsksLastVisibleIndex index)
        = Throw AssertionError).
Proof.
  intros b; repeat split; intros; reflexivity.
Qed.

(** ** Cursors across a snapshot *)

(** The claim of C2 fails from a [Disconnected] state: the cursors of
    [book8_top] are 0 and 0, the snapshot puts both on row 1. *)
Lemma snapshot_from_disconnected_resets_cursors :
  exists b,
    handleSnapshotReceived snapshot8 (Disconnected book8_top) = Connected b
    /\ lastVisibleAsksIndex (maxTotal b)
       <> lastVisibleAsksIndex (maxTotal book8_top)
    /\ lastVisibleBidsIndex (maxTotal b)
       <> lastVisibleBidsIndex (maxTotal book8_top).
Proof.
  eexists; split; [reflexivity | split; discriminate].
Qed.

(** C2, amended. A snapshot always yields a [Connected] state. Its cursors
    are those of the previous state when that state is [Connected]; from any
    other state, [Disconnected] included, each cursor is the size of the new
    collection minus 1. *)
Theorem snapshot_cursors :
  forall (payload : SnapshotPayload) (prevState : OrderBookState),
  exists b,
    handleSnapshotReceived payload prevState = Connected b
    /\ match prevState with
       | Connected prev =>
           lastVisibleAsksIndex (maxTotal b) = lastVisibleAsksIndex (maxTotal prev)
           /\ lastVisibleBidsIndex (maxTotal b) = lastVisibleBidsIndex (maxTotal prev)
       | _ =>
           lastVisibleAsksIndex (maxTotal b) = map_size (asks b) - 1
           /\ lastVisibleBidsIndex (maxTotal b) = map_size (bids b) - 1
       end.
Proof.
  intros payload prevState.
  eexists; split; [reflexivity |].
  destruct prevState; simpl; split; reflexivity.
Qed.

(** ** Frame of a delta *)

Lemma bind_Ok_inv {A B : Type} (c : result A) (k : A -> result B) (b : B) :
  bind c k = Ok b -> exists a, c = Ok a /\ k a = Ok b.
Proof.
  destruct c as [a | e]; simpl; intros H; [eauto | discriminate].
Qed.

(** C9. A delta that is accepted from a [Connected] state yields a
    [Connected] state with the same product id, display depth and cursors. *)
Theorem delta_frame :
  forall (payload : DataUpdatePayload) (prev : Book) (s' : OrderBookState),
    handleDataUpdate payload (Connected prev) = Ok s' ->
    exists b,
      s' = Connected b
      /\ productId b = productId prev
      /\ numLevels b = numLevels prev
      /\ lastVisibleAsksIndex (maxTotal b) = lastVisibleAsksIndex (maxTotal prev)
      /\ lastVisibleBidsIndex (maxTotal b) = lastVisibleBidsIndex (maxTotal prev).
Proof.
  intros payload prev s' H.
  unfold handleDataUpdate in H; simpl in H.
  apply bind_Ok_inv in H as (tb & _ & H).
  apply bind_Ok_inv in H as (ta & _ & H).
  injection H as <-.
  eexists; split; [reflexivity |].
  simpl; repeat split; reflexivity.
Qed.

Lemma delta_frame_witness :
  handleDataUpdate (mkDelta [(100, 0); (102, 1)] [(97, 2)]) (Connected book8)
  = Ok (Connected
          (mkBook [(101, mkCalculated 101 2 2); (102, mkCalculated 102 1 3)]
                  [(99, mkCalculated 99 1 1); (98, mkCalculated 98 4 5);
                   (97, mkCalculated 97 2 7)]
                  "BTC-USD"%string 2 (mkMaxTotal 1 1 5)))
  /\ exists b,
      Connected
        (mkBook [(101, mkCalculated 101 2 2); (102, mkCalculated 102 1 3)]
                [(99, mkCalculated 99 1 1); (98, mkCalculated 98 4 5);
                 (97, mkCalculated 97 2 7)]
                "BTC-USD"%string 2 (mkMaxTotal 1 1 5)) = Connected b
      /\ productId b = productId book8
      /\ numLevels b = numLevels book8
      /\ lastVisibleAsksIndex (maxTotal b) = lastVisibleAsksIndex (maxTotal book8)
      /\ lastVisibleBidsIndex (maxTotal b) = lastVisibleBidsIndex (maxTotal book8).
Proof.
  split.
  - reflexivity.
  - apply (delta_frame (mkDelta [(100, 0); (102, 1)] [(97, 2)]) book8).
    reflexivity.
Defined.

(** ** The stable sort *)

Section SortFacts.
Context {A : Type}.
Variable cmp : A -> A -> Z.

Lemma sort_insert_In (x y : A) (l : list A) :
  In y (sort_insert cmp x l) <-> y = x \/ In y l.
Proof.
  induction l as [| z l IH]; simpl.
  - intuition.
  - destruct (cmp x z <=? 0); simpl; [intuition |].
    rewrite IH; intuition.
Qed.

Lemma array_sort_In (y : A) (l : list A) :
  In y (array_sort cmp l) <-> In y l.
Proof.
  induction l as [| x l IH]; simpl; [tauto |].
  rewrite sort_insert_In, IH; intuition.
Qed.

Lemma array_sort_Forall (P : A -> Prop) (l : list A) :
  Forall P l -> Forall P (array_sort cmp l).
Proof.
  rewrite !Forall_forall; intros H y Hy.
  apply H, array_sort_In, Hy.
Qed.

Lemma sort_insert_Permutation (x : A) (l : list A) :
  Permutation (x :: l) (sort_insert cmp x l).
Proof.
  induction l as [| z l IH]; simpl; [reflexivity |].
  destruct (cmp x z <=? 0); [reflexivity |].
  rewrite perm_swap; constructor; exact IH.
Qed.

Lemma array_sort_Permutation (l : list A) :
  Permutation l (array_sort cmp l).
Proof.
  induction l as [| x l IH]; simpl; [constructor |].
  rewrite <- sort_insert_Permutation; constructor; exact IH.
Qed.

(** A list that is in order already is left as it is. *)
Lemma array_sort_sorted (l : list A) :
  StronglySorted (fun a b => cmp a b <= 0) l -> array_sort cmp l = l.
Proof.
  induction 1 as [| x l Hl IH Hx]; simpl; [reflexivity |].
  rewrite IH.
  destruct Hx as [| y l' Hy _]; simpl; [reflexivity |].
  apply Z.leb_le in Hy; rewrite Hy; reflexivity.
Qed.

Hypothesis cmp_total : forall a b, 0 < cmp a b -> cmp b a <= 0.
Hypothesis cmp_trans : forall a b c, cmp a b <= 0 -> cmp b c <= 0 -> cmp a c <= 0.

Lemma sort_insert_sorted (x : A) (l : list A) :
  StronglySorted (fun a b => cmp a b <= 0) l ->
  StronglySorted (fun a b => cmp a b <= 0) (sort_insert cmp x l).
Proof.
  induction 1 as [| z l Hl IH Hz]; simpl.
  - repeat constructor.
  - destruct (cmp x z <=? 0) eqn:E.
    + apply Z.leb_le in E.
      constructor; [constructor; assumption |].
      constructor; [exact E |].
      eapply Forall_impl; [| exact Hz].
      intros c Hc; eapply cmp_trans; eassumption.
    + apply Z.leb_gt in E.
      constructor; [exact IH |].
      apply Forall_forall; intros c Hc.
      apply sort_insert_In in Hc as [-> | Hc].
      * apply cmp_total, E.
      * rewrite Forall_forall in Hz; apply Hz, Hc.
Qed.

Lemma array_sort_is_sorted (l : list A) :
  StronglySorted (fun a b => cmp a b <= 0) (array_sort cmp l).
Proof.
  induction l as [| x l IH]; simpl; [constructor |].
  apply sort_insert_sorted, IH.
Qed.

End SortFacts.

(** Sorting pairs by their first component commutes with any change of the
    second component. *)
Lemma sort_insert_map_fst {V W : Type} (cmpV : Z * V -> Z * V -> Z)
    (cmpW : Z * W -> Z * W -> Z) (f : Z * V -> Z * W) :
  (forall a b, cmpW (f a) (f b) = cmpV a b) ->
  forall x l,
    List.map f (sort_insert cmpV x l) = sort_insert cmpW (f x) (List.map f l).
Proof.
  intros Hf x l; induction l as [| y l IH]; simpl; [reflexivity |].
  rewrite Hf; destruct (cmpV x y <=? 0); simpl; [reflexivity |].
  rewrite IH; reflexivity.
Qed.

Lemma array_sort_map_fst {V W : Type} (cmpV : Z * V -> Z * V -> Z)
    (cmpW : Z * W -> Z * W -> Z) (f : Z * V -> Z * W) :
  (forall a b, cmpW (f a) (f b) = cmpV a b) ->
  forall l, List.map f (array_sort cmpV l) = array_sort cmpW (List.map f l).
Proof.
  intros Hf l; induction l as [| x l IH]; simpl; [reflexivity |].
  rewrite (sort_insert_map_fst cmpV cmpW f Hf), IH; reflexivity.
Qed.

(** ** The aggregator *)

Lemma map_set_fresh {V : Type} (k : Z) (v : V) (m : JsMap V) :
  ~ In k (map_keys m) -> map_set k v m = m ++ [(k, v)].
Proof.
  induction m as [| [k' v'] m IH]; simpl; intros Hk; [reflexivity |].
  destruct (Z.eqb_spec k' k) as [-> | _]; [tauto |].
  rewrite IH; tauto.
Qed.

(** On pairs with distinct prices, none of them in the map yet, the reducer
    callback appends the levels of the running-sum construction. *)
Lemma fold_generate_running (l : list (Price * Size)) :
  forall (t : Z) (m : JsMap CalculatedOrderDetails),
    NoDup (List.map fst l) ->
    (forall k, In k (List.map fst l) -> ~ In k (map_keys m)) ->
    acc_map (fold_left generateCalculatedOrderDetails l (mkAcc t m))
    = m ++ runningLevels t l.
Proof.
  induction l as [| [p s] l IH]; intros t m Hnd Hfresh; simpl.
  - rewrite app_nil_r; reflexivity.
  - inversion Hnd as [| ? ? Hp Hl]; subst.
    destruct (s =? 0).
    + apply IH; [exact Hl |].
      intros k Hk; apply Hfresh; right; exact Hk.
    + simpl. unfold asNumber, asTotal.
      rewrite map_set_fresh by (apply Hfresh; left; reflexivity).
      rewrite IH; [rewrite <- app_assoc; reflexivity | exact Hl |].
      intros k Hk Hin.
      unfold map_keys in Hin; rewrite map_app in Hin.
      apply in_app_or in Hin as [Hin | [<- | []]].
      * apply (Hfresh k); [right; exact Hk | exact Hin].
      * apply Hp, Hk.
Qed.

Lemma runningLevels_ownPairs (l : list (Price * Size)) :
  forall t, ownPairs (runningLevels t l) = filter nonZero l.
Proof.
  induction l as [| [p s] l IH]; intros t; simpl; [reflexivity |].
  unfold nonZero at 1; simpl.
  destruct (s =? 0); simpl; [apply IH |].
  change (ownPairs ((p, mkCalculated p s (number_add t s))
                      :: runningLevels (number_add t s) l))
    with ((p, s) :: ownPairs (runningLevels (number_add t s) l)).
  rewrite IH; reflexivity.
Qed.

Lemma runningLevels_prices (l : list (Price * Size)) :
  forall t,
    List.map price (map_values (runningLevels t l))
    = List.map fst (filter nonZero l).
Proof.
  intros t; rewrite <- (runningLevels_ownPairs l t).
  unfold ownPairs; rewrite map_map; reflexivity.
Qed.

Lemma runningLevels_keys (l : list (Price * Size)) :
  forall t, map_keys (runningLevels t l) = List.map fst (filter nonZero l).
Proof.
  induction l as [| [p s] l IH]; intros t; simpl; [reflexivity |].
  unfold nonZero at 1; simpl.
  destruct (s =? 0); simpl; [apply IH |].
  change (map_keys ((p, mkCalculated p s (number_add t s))
                      :: runningLevels (number_add t s) l))
    with (p :: map_keys (runningLevels (number_add t s) l)).
  rewrite IH; reflexivity.
Qed.

Lemma runningLevels_totals (l : list (Price * Size)) :
  forall (t : Z) (i : nat) (level : CalculatedOrderDetails),
    nth_error (map_values (runningLevels t l)) i = Some level ->
    total level
    = sumSizesFrom t (firstn (S i) (map_values (runningLevels t l))).
Proof.
  induction l as [| [p s] l IH]; intros t i level H; simpl in *.
  - destruct i; discriminate H.
  - destruct (s =? 0); [apply IH, H |].
    destruct i as [| j]; simpl in H.
    + injection H as <-; reflexivity.
    + apply IH in H. rewrite H. reflexivity.
Qed.

Lemma runningLevels_prefix_sums (l : list (Price * Size)) :
  totalsArePrefixSums (map_values (runningLevels 0 l)).
Proof.
  intros i level H. exact (runningLevels_totals l 0 i level H).
Qed.

(** Distinct keys turn the order the sort guarantees into a strict one. *)
Lemma sorted_distinct_ascending {V : Type} (l : list (Z * V)) :
  StronglySorted (fun a b => byPriceAsc a b <= 0) l ->
  NoDup (List.map fst l) ->
  StronglySorted Z.lt (List.map fst l).
Proof.
  induction 1 as [| x l Hl IH Hx]; simpl; intros Hnd; [constructor |].
  inversion Hnd as [| ? ? Hnotin Hnd']; subst.
  constructor; [apply IH, Hnd' |].
  apply Forall_forall; intros k Hk.
  apply in_map_iff in Hk as (y & <- & Hy).
  rewrite Forall_forall in Hx; specialize (Hx y Hy); cbv beta in Hx; unfold byPriceAsc in Hx.
  assert (fst y <> fst x) by (intros E; apply Hnotin, in_map_iff; exists y; split; [exact E | exact Hy]).
  lia.
Qed.

Lemma sorted_distinct_descending {V : Type} (l : list (Z * V)) :
  StronglySorted (fun a b => byPriceDesc a b <= 0) l ->
  NoDup (List.map fst l) ->
  StronglySorted Z.gt (List.map fst l).
Proof.
  induction 1 as [| x l Hl IH Hx]; simpl; intros Hnd; [constructor |].
  inversion Hnd as [| ? ? Hnotin Hnd']; subst.
  constructor; [apply IH, Hnd' |].
  apply Forall_forall; intros k Hk.
  apply in_map_iff in Hk as (y & <- & Hy).
  rewrite Forall_forall in Hx; specialize (Hx y Hy); cbv beta in Hx; unfold byPriceDesc in Hx.
  assert (fst y <> fst x) by (intros E; apply Hnotin, in_map_iff; exists y; split; [exact E | exact Hy]).
  lia.
Qed.

Lemma sorted_keys_filter {V : Type} (R : Z -> Z -> Prop) (f : Z * V -> bool)
    (l : list (Z * V)) :
  StronglySorted R (List.map fst l) ->
  StronglySorted R (List.map fst (filter f l)).
Proof.
  induction l as [| x l IH]; simpl; intros H; [constructor |].
  inversion H as [| ? ? Hl Hx]; subst.
  destruct (f x); simpl; [| apply IH, Hl].
  constructor; [apply IH, Hl |].
  rewrite Forall_forall in *; intros k Hk.
  apply Hx. apply in_map_iff in Hk as (y & <- & Hy).
  apply in_map, (proj1 (filter_In f y l)), Hy.
Qed.

Lemma sorted_keys_NoDup (R : Z -> Z -> Prop) (l : list Z) :
  (forall k, ~ R k k) -> StronglySorted R l -> NoDup l.
Proof.
  intros Hirr; induction 1 as [| x l Hl IH Hx]; constructor; [| exact IH].
  intros Hin; rewrite Forall_forall in Hx; exact (Hirr x (Hx x Hin)).
Qed.

Lemma byPriceAsc_total {V : Type} (a b : Z * V) :
  0 < byPriceAsc a b -> byPriceAsc b a <= 0.
Proof. unfold byPriceAsc; lia. Qed.

Lemma byPriceAsc_trans {V : Type} (a b c : Z * V) :
  byPriceAsc a b <= 0 -> byPriceAsc b c <= 0 -> byPriceAsc a c <= 0.
Proof. unfold byPriceAsc; lia. Qed.

Lemma byPriceDesc_total {V : Type} (a b : Z * V) :
  0 < byPriceDesc a b -> byPriceDesc b a <= 0.
Proof. unfold byPriceDesc; lia. Qed.

Lemma byPriceDesc_trans {V : Type} (a b c : Z * V) :
  byPriceDesc a b <= 0 -> byPriceDesc b c <= 0 -> byPriceDesc a c <= 0.
Proof. unfold byPriceDesc; lia. Qed.

(** The sorted input keeps the distinct prices of the input. *)
Lemma array_sort_NoDup_keys {V : Type} (cmp : Z * V -> Z * V -> Z)
    (l : list (Z * V)) :
  NoDup (List.map fst l) -> NoDup (List.map fst (array_sort cmp l)).
Proof.
  apply Permutation_NoDup, Permutation_map, array_sort_Permutation.
Qed.

Lemma nonZero_spec (p s : Z) : nonZero (p, s) = true <-> s <> 0.
Proof.
  unfold nonZero; simpl. destruct (Z.eqb_spec s 0); simpl; intuition congruence.
Qed.

Lemma aggregate_pairs (cmp : Z * Z -> Z * Z -> Z) (input : list (Price * Size)) :
  NoDup (List.map fst input) ->
  acc_map (fold_left generateCalculatedOrderDetails
             (array_sort cmp input) (mkAcc 0 map_new))
  = runningLevels 0 (array_sort cmp input).
Proof.
  intros Hnd.
  rewrite fold_generate_running; [reflexivity | |].
  - apply array_sort_NoDup_keys, Hnd.
  - intros k _ [].
Qed.

Lemma runningLevels_members (cmp : Z * Z -> Z * Z -> Z)
    (input : list (Price * Size)) (p s : Z) :
  In (p, s) (ownPairs (runningLevels 0 (array_sort cmp input)))
  <-> In (p, s) input /\ s <> 0.
Proof.
  rewrite runningLevels_ownPairs, filter_In, array_sort_In, nonZero_spec.
  reflexivity.
Qed.

Lemma aggregate_asks (input : list (Price * Size)) :
  NoDup (List.map fst input) ->
  aggregates Z.lt input
    (acc_map (fold_left generateCalculatedOrderDetails
                (array_sort byPriceAsc input) (mkAcc 0 map_new))).
Proof.
  intros Hnd. rewrite (aggregate_pairs _ _ Hnd).
  split; [| split].
  - rewrite runningLevels_prices.
    apply sorted_keys_filter, sorted_distinct_ascending.
    + apply array_sort_is_sorted; [apply byPriceAsc_total | apply byPriceAsc_trans].
    + apply array_sort_NoDup_keys, Hnd.
  - apply runningLevels_prefix_sums.
  - apply runningLevels_members.
Qed.

Lemma aggregate_bids (input : list (Price * Size)) :
  NoDup (List.map fst input) ->
  aggregates Z.gt input
    (acc_map (fold_left generateCalculatedOrderDetails
                (array_sort byPriceDesc input) (mkAcc 0 map_new))).
Proof.
  intros Hnd. rewrite (aggregate_pairs _ _ Hnd).
  split; [| split].
  - rewrite runningLevels_prices.
    apply sorted_keys_filter, sorted_distinct_descending.
    + apply array_sort_is_sorted; [apply byPriceDesc_total | apply byPriceDesc_trans].
    + apply array_sort_NoDup_keys, Hnd.
  - apply runningLevels_prefix_sums.
  - apply runningLevels_members.
Qed.

(** C5. A snapshot whose two lists have distinct prices yields asks in
    strictly ascending and bids in strictly descending order of price; on
    either side each total is the prefix sum of the sizes in that order (the
    sizes up to the level, added from the first one on), and the levels are
    exactly the pairs of the payload whose size is not 0. *)
Theorem snapshot_sort_and_sum :
  forall (payload : SnapshotPayload) (prevState : OrderBookState),
    NoDup (List.map fst (snap_asks payload)) ->
    NoDup (List.map fst (snap_bids payload)) ->
    exists b,
      handleSnapshotReceived payload prevState = Connected b
      /\ aggregates Z.lt (snap_asks payload) (asks b)
      /\ aggregates Z.gt (snap_bids payload) (bids b).
Proof.
  intros payload prevState Ha Hb.
  eexists; split; [reflexivity |].
  simpl; split; [apply aggregate_asks, Ha | apply aggregate_bids, Hb].
Qed.

Lemma snapshot_sort_and_sum_witness :
  NoDup (List.map fst (snap_asks snapshot8))
  /\ NoDup (List.map fst (snap_bids snapshot8))
  /\ exists b,
      handleSnapshotReceived snapshot8 NeverLoaded = Connected b
      /\ aggregates Z.lt (snap_asks snapshot8) (asks b)
      /\ aggregates Z.gt (snap_bids snapshot8) (bids b).
Proof.
  assert (Ha : NoDup (List.map fst (snap_asks snapshot8))) by distinct_keys.
  assert (Hb : NoDup (List.map fst (snap_bids snapshot8))) by distinct_keys.
  split; [exact Ha | split; [exact Hb |]].
  exact (snapshot_sort_and_sum snapshot8 NeverLoaded Ha Hb).
Defined.

(** ** Snapshots without levels *)

Lemma fold_generate_zero (l : list (Price * Size)) (acc : Acc) :
  Forall (fun e => snd e = 0) l ->
  fold_left generateCalculatedOrderDetails l acc = acc.
Proof.
  induction 1 as [| [p s] l Hs _ IH]; simpl; [reflexivity |].
  simpl in Hs; subst s; simpl; exact IH.
Qed.

(** C10. From [NeverLoaded] or [ConnectedWaitingForData], a snapshot whose
    lists are empty or hold pairs of size 0 only is accepted and yields a
    [Connected] state with two empty collections, both cursors at -1 and a
    scale value of 0. *)
Theorem snapshot_without_levels :
  forall (payload : SnapshotPayload) (s : OrderBookState),
    s = NeverLoaded \/ s = ConnectedWaitingForData ->
    Forall (fun e => snd e = 0) (snap_asks payload) ->
    Forall (fun e => snd e = 0) (snap_bids payload) ->
    orderBookReducer (Some s) (SnapshotReceived payload)
    = Ok (Connected
            (mkBook [] [] (product_id payload) (snap_numLevels payload)
               (mkMaxTotal (-1) (-1) 0))).
Proof.
  intros payload s Hs Ha Hb.
  assert (E : handleSnapshotReceived payload s
              = Connected
                  (mkBook [] [] (product_id payload) (snap_numLevels payload)
                     (mkMaxTotal (-1) (-1) 0))).
  { unfold handleSnapshotReceived.
    rewrite (fold_generate_zero _ _ (array_sort_Forall byPriceAsc _ _ Ha)).
    rewrite (fold_generate_zero _ _ (array_sort_Forall byPriceDesc _ _ Hb)).
    destruct Hs as [-> | ->]; reflexivity. }
  rewrite reducer_cases, E; reflexivity.
Qed.

Lemma snapshot_without_levels_witness :
  (ConnectedWaitingForData = NeverLoaded
   \/ ConnectedWaitingForData = ConnectedWaitingForData)
  /\ Forall (fun e : Z * Z => snd e = 0) [(100, 0); (101, 0)]
  /\ Forall (fun e : Z * Z => snd e = 0) []
  /\ orderBookReducer (Some ConnectedWaitingForData)
       (SnapshotReceived
          (mkSnapshot "BTC-USD"%string 2 [(100, 0); (101, 0)] []))
     = Ok (Connected (mkBook [] [] "BTC-USD"%string 2 (mkMaxTotal (-1) (-1) 0))).
Proof.
  assert (Ha : Forall (fun e : Z * Z => snd e = 0) [(100, 0); (101, 0)])
    by (repeat constructor).
  assert (Hb : Forall (fun e : Z * Z => snd e = 0) []) by constructor.
  split; [right; reflexivity | split; [exact Ha | split; [exact Hb |]]].
  exact (snapshot_without_levels
           (mkSnapshot "BTC-USD"%string 2 [(100, 0); (101, 0)] [])
           ConnectedWaitingForData (or_intror eq_refl) Ha Hb).
Defined.

(** ** Zero-size entries of a delta *)

Lemma map_delete_has {V : Type} (k : Z) (m : JsMap V) :
  map_has k (map_delete k m) = false.
Proof.
  induction m as [| [k' v'] m IH]; simpl; [reflexivity |].
  destruct (Z.eqb_spec k' k) as [-> | Hne]; [exact IH |].
  simpl. destruct (Z.eqb_spec k' k); [contradiction | exact IH].
Qed.

Lemma map_delete_absent {V : Type} (k : Z) (m : JsMap V) :
  map_has k m = false -> map_delete k m = m.
Proof.
  induction m as [| [k' v'] m IH]; simpl; [reflexivity |].
  destruct (k' =? k); simpl; [discriminate |].
  intros H; rewrite IH by exact H; reflexivity.
Qed.

(** On the asks side a pair of size 0 takes its price out of the working
    map, and leaves the map alone when the price is not in it. *)
Lemma mergeAsk_zero (tmp : JsMap OrderDetails) (p : Price) :
  map_has p (mergeAsk tmp (p, 0)) = false
  /\ (map_has p tmp = false -> mergeAsk tmp (p, 0) = tmp).
Proof.
  split; [apply map_delete_has | apply map_delete_absent].
Qed.

(** On the bids side pairs of size 0 are passed over: the working map comes
    out of the loop as it went in. *)
Lemma mergeBid_zero (delta : list (Price * Size)) (tmp : JsMap OrderDetails) :
  Forall (fun e => snd e = 0) delta -> fold_left mergeBid delta tmp = tmp.
Proof.
  induction 1 as [| [p s] delta Hs _ IH]; simpl; [reflexivity |].
  simpl in Hs; subst s; simpl; exact IH.
Qed.

(** C1, at the input where the code departs from it. The delta names price
    100 on the asks side and price 99 on the bids side, both with size 0 and
    both present in the book of section 8. The ask is removed; the bid is
    still there, and the bids are what they were. *)
Theorem delta_zero_size_bid_stays :
  exists b,
    handleDataUpdate (mkDelta [(100, 0)] [(99, 0)]) (Connected book8)
    = Ok (Connected b)
    /\ map_has 100 (asks book8) = true
    /\ map_has 100 (asks b) = false
    /\ map_has 99 (bids book8) = true
    /\ map_has 99 (bids b) = true
    /\ bids b = bids book8.
Proof.
  eexists; split; [reflexivity |].
  repeat split; reflexivity.
Qed.

(** ** The scale value *)

Lemma totalAt_empty (index : Z) : totalAt [] index = Throw TypeError.
Proof.
  unfold totalAt, array_get; simpl.
  destruct (_ <? 0); [reflexivity |].
  destruct (Z.to_nat _); reflexivity.
Qed.

(** When the read succeeds it is the read the spec describes. *)
Lemma totalAt_Ok_clamped (m : JsMap CalculatedOrderDetails) (index t : Z) :
  totalAt m index = Ok t -> clampedTotal m index = t.
Proof.
  unfold totalAt, array_get, clampedTotal.
  destruct m as [| e m].
  - simpl. destruct (_ <? 0); [discriminate |].
    destruct (Z.to_nat _); discriminate.
  - destruct (Z.min index (map_size (e :: m) - 1) <? 0); [discriminate |].
    destruct (nth_error (map_values (e :: m))
                (Z.to_nat (Z.min index (map_size (e :: m) - 1))));
      [intros H; injection H as <-; reflexivity | discriminate].
Qed.

(** On a side that holds a level, a cursor that is not negative is clamped
    to a row that exists, and the read succeeds. *)
Lemma totalAt_clamps (m : JsMap CalculatedOrderDetails) (index : Z) :
  m <> [] -> 0 <= index ->
  exists level,
    nth_error (map_values m) (Z.to_nat (Z.min index (map_size m - 1)))
    = Some level
    /\ totalAt m index = Ok (total level).
Proof.
  intros Hm Hi.
  assert (Hlen : 0 < map_size m).
  { destruct m; [contradiction | unfold map_size; simpl List.length; lia]. }
  assert (Hlt : (Z.to_nat (Z.min index (map_size m - 1)) < List.length (map_values m))%nat).
  { unfold map_values; rewrite length_map. unfold map_size in *; lia. }
  destruct (nth_error (map_values m) (Z.to_nat (Z.min index (map_size m - 1))))
    as [level |] eqn:E.
  - exists level; split; [reflexivity |].
    unfold totalAt, array_get.
    destruct (Z.ltb_spec (Z.min index (map_size m - 1)) 0); [lia |].
    rewrite E; reflexivity.
  - apply nth_error_None in E; lia.
Qed.

(** A cursor update on a book with a level on each side and cursors that are
    not negative is accepted, stores the cursors, leaves the collections
    alone and sets the scale to the value the spec describes. *)
Lemma cursor_update_scale (bidsIndex asksIndex : Z) (prev : Book) :
  asks prev <> [] -> bids prev <> [] -> 0 <= bidsIndex -> 0 <= asksIndex ->
  exists b,
    handleLastVisibleItemIndexChange bidsIndex asksIndex prev = Ok (Connected b)
    /\ asks b = asks prev /\ bids b = bids prev
    /\ lastVisibleAsksIndex (maxTotal b) = asksIndex
    /\ lastVisibleBidsIndex (maxTotal b) = bidsIndex
    /\ totalValue (maxTotal b) = specScaleValue b.
Proof.
  intros Ha Hb Hbi Hai.
  destruct (totalAt_clamps (bids prev) bidsIndex Hb Hbi) as (lb & _ & Eb).
  destruct (totalAt_clamps (asks prev) asksIndex Ha Hai) as (la & _ & Ea).
  unfold handleLastVisibleItemIndexChange; rewrite Eb, Ea; simpl.
  eexists; split; [reflexivity |].
  unfold specScaleValue; simpl.
  rewrite (totalAt_Ok_clamped _ _ _ Eb), (totalAt_Ok_clamped _ _ _ Ea).
  repeat split; try reflexivity. apply Z.max_comm.
Qed.

(** An accepted cursor update leaves the scale at the value of the spec. *)
Lemma cursor_update_sets_scale (bidsIndex asksIndex : Z) (prev b : Book) :
  handleLastVisibleItemIndexChange bidsIndex asksIndex prev = Ok (Connected b) ->
  totalValue (maxTotal b) = specScaleValue b.
Proof.
  unfold handleLastVisibleItemIndexChange; intros H.
  apply bind_Ok_inv in H as (tb & Eb & H).
  apply bind_Ok_inv in H as (ta & Ea & H).
  injection H as <-; unfold specScaleValue; simpl.
  rewrite (totalAt_Ok_clamped _ _ _ Eb), (totalAt_Ok_clamped _ _ _ Ea).
  apply Z.max_comm.
Qed.

(** An accepted delta leaves the scale at the value of the spec. *)
Lemma delta_sets_scale (payload : DataUpdatePayload) (prev b : Book) :
  handleDataUpdate payload (Connected prev) = Ok (Connected b) ->
  totalValue (maxTotal b) = specScaleValue b.
Proof.
  unfold handleDataUpdate; simpl; intros H.
  apply bind_Ok_inv in H as (tb & Eb & H).
  apply bind_Ok_inv in H as (ta & Ea & H).
  injection H as <-; unfold specScaleValue; simpl.
  rewrite (totalAt_Ok_clamped _ _ _ Eb), (totalAt_Ok_clamped _ _ _ Ea).
  apply Z.max_comm.
Qed.

(** C3, at the inputs where the code departs from it. A snapshot without
    bids is accepted; the cursor update that follows throws a [TypeError],
    and so does every scale computation on an empty side, in the cursor
    handler and in the delta handler alike. *)
Theorem scale_on_empty_side_throws :
  dispatchAll initialState
    [SnapshotReceived (mkSnapshot "BTC-USD"%string 2 [(100, 3)] []);
     UpdateBidsLastVisibleIndex 0]
  = Throw TypeError
  /\ handleLastVisibleItemIndexChange 0 0 emptyBook = Throw TypeError
  /\ handleDataUpdate (mkDelta [] []) (Connected emptyBook) = Throw TypeError
  /\ handleDataUpdate (mkDelta [(100, 0); (101, 0)] []) (Connected book8)
     = Throw TypeError.
Proof.
  repeat split; reflexivity.
Qed.

(** C4, at the run where the code departs from it. After the snapshot of
    section 8 both cursors are moved to row 0, which sets the scale to 3;
    the same snapshot then arrives again. The cursors stay on row 0, where
    the totals are 3 and 1, but the stored scale is 5, the larger of the two
    grand totals. *)
Theorem snapshot_scale_ignores_kept_cursors :
  dispatchAll initialState
    [SnapshotReceived snapshot8;
     UpdateBidsLastVisibleIndex 0;
     UpdateAsksLastVisibleIndex 0]
  = Ok (Connected book8_top)
  /\ totalValue (maxTotal book8_top) = specScaleValue book8_top
  /\ exists b,
      dispatchAll initialState
        [SnapshotReceived snapshot8;
         UpdateBidsLastVisibleIndex 0;
         UpdateAsksLastVisibleIndex 0;
         SnapshotReceived snapshot8]
      = Ok (Connected b)
      /\ lastVisibleAsksIndex (maxTotal b) = 0
      /\ lastVisibleBidsIndex (maxTotal b) = 0
      /\ clampedTotal (asks b) 0 = 3
      /\ clampedTotal (bids b) 0 = 1
      /\ specScaleValue b = 3
      /\ totalValue (maxTotal b) = 5.
Proof.
  split; [reflexivity | split; [reflexivity |]].
  eexists; split; [reflexivity |].
  repeat split; reflexivity.
Qed.

(** ** Re-aggregation of a collection's own pairs *)

(** The callback of the delta path reads the key and the size of an entry
    and nothing else: it is the callback of the snapshot path on the pairs. *)
Lemma fold_fromExisting_rawPairs (l : list (Price * OrderDetails)) :
  forall acc,
    fold_left generateCalculatedOrderDetailsFromExisting l acc
    = fold_left generateCalculatedOrderDetails (rawPairs l) acc.
Proof.
  induction l as [| [k v] l IH]; intros acc; simpl; [reflexivity |].
  destruct (od_size v =? 0); apply IH.
Qed.

Lemma rawPairs_sort_asc (l : list (Price * OrderDetails)) :
  rawPairs (array_sort byPriceAsc l) = array_sort byPriceAsc (rawPairs l).
Proof.
  apply (array_sort_map_fst byPriceAsc byPriceAsc). reflexivity.
Qed.

Lemma rawPairs_sort_desc (l : list (Price * OrderDetails)) :
  rawPairs (array_sort byPriceDesc l) = array_sort byPriceDesc (rawPairs l).
Proof.
  apply (array_sort_map_fst byPriceDesc byPriceDesc). reflexivity.
Qed.

Lemma rawPairs_keys (tmp : JsMap OrderDetails) :
  List.map fst (rawPairs tmp) = map_keys tmp.
Proof.
  unfold rawPairs, map_keys; rewrite map_map; reflexivity.
Qed.

(** Writing the size an entry already has leaves the pairs as they are. *)
Lemma map_set_restated (p s : Z) (tmp : JsMap OrderDetails) :
  NoDup (map_keys tmp) ->
  In (p, s) (rawPairs tmp) ->
  rawPairs (map_set p (Raw (mkRaw p s)) tmp) = rawPairs tmp.
Proof.
  induction tmp as [| [k v] tmp IH]; simpl; intros Hnd Hin; [contradiction |].
  inversion Hnd as [| ? ? Hk Hnd']; subst.
  destruct (Z.eqb_spec k p) as [-> | Hne].
  - destruct Hin as [E | Hin].
    + injection E as <-; reflexivity.
    + exfalso; apply Hk. rewrite <- rawPairs_keys.
      apply in_map_iff; exists (p, s); split; [reflexivity | exact Hin].
  - destruct Hin as [E | Hin]; [injection E as E _; contradiction |].
    simpl; f_equal. apply IH; assumption.
Qed.

Lemma mergeAsk_restated (delta : list (Price * Size)) :
  forall tmp : JsMap OrderDetails,
    NoDup (map_keys tmp) ->
    Forall (fun e => In e (rawPairs tmp) /\ snd e <> 0) delta ->
    rawPairs (fold_left mergeAsk delta tmp) = rawPairs tmp.
Proof.
  induction delta as [| [p s] delta IH]; intros tmp Hnd Hd; simpl; [reflexivity |].
  inversion Hd as [| ? ? [Hin Hs] Hd']; subst; simpl in Hs.
  destruct (Z.eqb_spec s 0) as [-> | _]; [contradiction |].
  pose proof (map_set_restated p s tmp Hnd Hin) as E.
  rewrite IH, E; [reflexivity | |].
  - rewrite <- rawPairs_keys, E, rawPairs_keys; exact Hnd.
  - rewrite E; exact Hd'.
Qed.

Lemma mergeBid_restated (delta : list (Price * Size)) :
  forall tmp : JsMap OrderDetails,
    NoDup (map_keys tmp) ->
    Forall (fun e => In e (rawPairs tmp) /\ snd e <> 0) delta ->
    rawPairs (fold_left mergeBid delta tmp) = rawPairs tmp.
Proof.
  induction delta as [| [p s] delta IH]; intros tmp Hnd Hd; simpl; [reflexivity |].
  inversion Hd as [| ? ? [Hin Hs] Hd']; subst; simpl in Hs.
  destruct (Z.eqb_spec s 0) as [-> | _]; [contradiction |].
  pose proof (map_set_restated p s tmp Hnd Hin) as E.
  rewrite IH, E; [reflexivity | |].
  - rewrite <- rawPairs_keys, E, rawPairs_keys; exact Hnd.
  - rewrite E; exact Hd'.
Qed.

Lemma map_copy_keys (m : JsMap CalculatedOrderDetails) :
  map_keys (map_copy m) = map_keys m.
Proof.
  unfold map_keys, map_copy; rewrite map_map; reflexivity.
Qed.

Lemma runningFrom_rawPairs (m : JsMap CalculatedOrderDetails) :
  forall t, runningFrom t m -> rawPairs (map_copy m) = ownPairs m.
Proof.
  induction m as [| [k level] m IH]; intros t H; [reflexivity |].
  destruct H as (Hk & _ & _ & H).
  change (rawPairs (map_copy ((k, level) :: m)))
    with ((k, size level) :: rawPairs (map_copy m)).
  change (ownPairs ((k, level) :: m))
    with ((price level, size level) :: ownPairs m).
  rewrite (IH _ H), Hk; reflexivity.
Qed.

Lemma runningFrom_sizes (m : JsMap CalculatedOrderDetails) :
  forall t, runningFrom t m -> Forall (fun e => snd e <> 0) (ownPairs m).
Proof.
  induction m as [| [k level] m IH]; intros t H; [constructor |].
  destruct H as (_ & Hs & _ & H).
  constructor; [exact Hs | exact (IH _ H)].
Qed.

(** A collection that continues a running sum is the running-sum
    construction on its own pairs. *)
Lemma runningFrom_runningLevels (m : JsMap CalculatedOrderDetails) :
  forall t, runningFrom t m -> runningLevels t (ownPairs m) = m.
Proof.
  induction m as [| [k level] m IH]; intros t H; [reflexivity |].
  destruct H as (Hk & Hs & Ht & H).
  change (ownPairs ((k, level) :: m))
    with ((price level, size level) :: ownPairs m).
  simpl. destruct (Z.eqb_spec (size level) 0) as [E | _]; [contradiction |].
  rewrite <- Ht, (IH _ H), Hk.
  destruct level; simpl in *; subst; reflexivity.
Qed.

(** The running-sum construction builds such a collection. *)
Lemma runningLevels_runningFrom (l : list (Price * Size)) :
  forall t, runningFrom t (runningLevels t l).
Proof.
  induction l as [| [p s] l IH]; intros t; simpl; [exact I |].
  destruct (Z.eqb_spec s 0) as [_ | Hs]; [apply IH |].
  simpl; repeat split; [exact Hs | apply IH].
Qed.

Lemma ascending_keys_sorted {V : Type} (l : list (Z * V)) :
  StronglySorted Z.lt (List.map fst l) ->
  StronglySorted (fun a b => byPriceAsc a b <= 0) l.
Proof.
  induction l as [| x l IH]; simpl; intros H; [constructor |].
  inversion H as [| ? ? Hl Hx]; subst.
  constructor; [apply IH, Hl |].
  rewrite Forall_forall in *; intros y Hy.
  specialize (Hx (fst y) (in_map fst l y Hy)); unfold byPriceAsc; lia.
Qed.

Lemma descending_keys_sorted {V : Type} (l : list (Z * V)) :
  StronglySorted Z.gt (List.map fst l) ->
  StronglySorted (fun a b => byPriceDesc a b <= 0) l.
Proof.
  induction l as [| x l IH]; simpl; intros H; [constructor |].
  inversion H as [| ? ? Hl Hx]; subst.
  constructor; [apply IH, Hl |].
  rewrite Forall_forall in *; intros y Hy.
  specialize (Hx (fst y) (in_map fst l y Hy)); unfold byPriceDesc; lia.
Qed.

Lemma restated_pairs (m : JsMap CalculatedOrderDetails) (t : Z) :
  runningFrom t m ->
  Forall (fun e => In e (rawPairs (map_copy m)) /\ snd e <> 0) (ownPairs m).
Proof.
  intros H. rewrite (runningFrom_rawPairs m t H).
  pose proof (runningFrom_sizes m t H) as Hs.
  rewrite Forall_forall in *; intros e He; split; [exact He | apply Hs, He].
Qed.

Lemma ownPairs_keys (m : JsMap CalculatedOrderDetails) (t : Z) :
  runningFrom t m -> List.map fst (ownPairs m) = map_keys m.
Proof.
  intros H; rewrite <- (runningFrom_rawPairs m t H), rawPairs_keys.
  apply map_copy_keys.
Qed.

(** Merging a well-formed asks collection with its own pairs and running
    the aggregator gives the collection back. *)
Lemma reaggregate_asks (m : JsMap CalculatedOrderDetails) :
  wellFormedAsks m ->
  acc_map
    (fold_left generateCalculatedOrderDetailsFromExisting
       (array_sort byPriceAsc
          (map_entries (fold_left mergeAsk (ownPairs m) (map_copy m))))
       (mkAcc 0 map_new))
  = m.
Proof.
  intros [Hsorted Hrun].
  assert (Hnd : NoDup (map_keys m)).
  { apply (sorted_keys_NoDup Z.lt); [intros k; lia | exact Hsorted]. }
  unfold map_entries.
  rewrite fold_fromExisting_rawPairs, rawPairs_sort_asc.
  rewrite mergeAsk_restated;
    [| rewrite map_copy_keys; exact Hnd | exact (restated_pairs m 0 Hrun)].
  rewrite (runningFrom_rawPairs m 0 Hrun).
  rewrite array_sort_sorted
    by (apply ascending_keys_sorted; rewrite (ownPairs_keys m 0 Hrun); exact Hsorted).
  rewrite fold_generate_running.
  - apply (runningFrom_runningLevels m 0 Hrun).
  - rewrite (ownPairs_keys m 0 Hrun); exact Hnd.
  - intros k _ [].
Qed.

Lemma reaggregate_bids (m : JsMap CalculatedOrderDetails) :
  wellFormedBids m ->
  acc_map
    (fold_left generateCalculatedOrderDetailsFromExisting
       (array_sort byPriceDesc
          (map_entries (fold_left mergeBid (ownPairs m) (map_copy m))))
       (mkAcc 0 map_new))
  = m.
Proof.
  intros [Hsorted Hrun].
  assert (Hnd : NoDup (map_keys m)).
  { apply (sorted_keys_NoDup Z.gt); [intros k; lia | exact Hsorted]. }
  unfold map_entries.
  rewrite fold_fromExisting_rawPairs, rawPairs_sort_desc.
  rewrite mergeBid_restated;
    [| rewrite map_copy_keys; exact Hnd | exact (restated_pairs m 0 Hrun)].
  rewrite (runningFrom_rawPairs m 0 Hrun).
  rewrite array_sort_sorted
    by (apply descending_keys_sorted; rewrite (ownPairs_keys m 0 Hrun); exact Hsorted).
  rewrite fold_generate_running.
  - apply (runningFrom_runningLevels m 0 Hrun).
  - rewrite (ownPairs_keys m 0 Hrun); exact Hnd.
  - intros k _ [].
Qed.

(** The claim of C8 fails on two books the reducer itself produces. A
    snapshot that names a price twice leaves one ask whose total (5) is more
    than its size (2); the delta that restates it is accepted and brings the
    total down to 2. A snapshot without levels leaves two empty collections;
    the delta that restates them, an empty one, throws. *)
Lemma restated_delta_changes_or_throws :
  (handleSnapshotReceived repeatedPriceSnapshot NeverLoaded
   = Connected repeatedPriceBook
   /\ exists b,
       handleDataUpdate (restate repeatedPriceBook) (Connected repeatedPriceBook)
       = Ok (Connected b)
       /\ asks b <> asks repeatedPriceBook)
  /\ (handleSnapshotReceived emptySnapshot NeverLoaded = Connected emptyBook
      /\ handleDataUpdate (restate emptyBook) (Connected emptyBook)
         = Throw TypeError).
Proof.
  split; split; try reflexivity.
  eexists; split; [reflexivity | discriminate].
Qed.

(** C8, amended. Take a [Connected] state whose collections are as the
    aggregator builds them (canonical order, keyed by price, no size 0,
    totals that are the running sums), with a level on each side and cursors
    that are not negative. The delta that restates the pairs of both
    collections is accepted and yields the same two collections, totals
    included. *)
Theorem restated_delta_keeps_collections :
  forall prev : Book,
    wellFormedAsks (asks prev) ->
    wellFormedBids (bids prev) ->
    asks prev <> [] ->
    bids prev <> [] ->
    0 <= lastVisibleAsksIndex (maxTotal prev) ->
    0 <= lastVisibleBidsIndex (maxTotal prev) ->
    exists b,
      handleDataUpdate (restate prev) (Connected prev) = Ok (Connected b)
      /\ asks b = asks prev
      /\ bids b = bids prev.
Proof.
  intros prev Hwa Hwb Ha Hb Hai Hbi.
  unfold handleDataUpdate, restate.
  cbn [assert is_Connected bind upd_asks upd_bids].
  rewrite (reaggregate_asks _ Hwa), (reaggregate_bids _ Hwb).
  destruct (totalAt_clamps (bids prev) _ Hb Hbi) as (lb & _ & ->).
  destruct (totalAt_clamps (asks prev) _ Ha Hai) as (la & _ & ->).
  cbn [bind].
  eexists; split; [reflexivity |].
  split; reflexivity.
Qed.

Lemma restated_delta_keeps_collections_witness :
  wellFormedAsks (asks book8)
  /\ wellFormedBids (bids book8)
  /\ asks book8 <> []
  /\ bids book8 <> []
  /\ 0 <= lastVisibleAsksIndex (maxTotal book8)
  /\ 0 <= lastVisibleBidsIndex (maxTotal book8)
  /\ exists b,
      handleDataUpdate (restate book8) (Connected book8) = Ok (Connected b)
      /\ asks b = asks book8
      /\ bids b = bids book8.
Proof.
  assert (Hwa : wellFormedAsks (asks book8)).
  { split; [strictly_sorted | simpl; repeat split; lia]. }
  assert (Hwb : wellFormedBids (bids book8)).
  { split; [strictly_sorted | simpl; repeat split; lia]. }
  assert (Ha : asks book8 <> []) by discriminate.
  assert (Hb : bids book8 <> []) by discriminate.
  assert (Hai : 0 <= lastVisibleAsksIndex (maxTotal book8)) by (simpl; lia).
  assert (Hbi : 0 <= lastVisibleBidsIndex (maxTotal book8)) by (simpl; lia).
  repeat (split; [assumption |]).
  exact (restated_delta_keeps_collections book8 Hwa Hwb Ha Hb Hai Hbi).
Defined.

(** ** Well-formed collections are what the reducer produces *)

Lemma map_set_keys_In {V : Type} (k x : Z) (v : V) (m : JsMap V) :
  In x (map_keys (map_set k v m)) <-> x = k \/ In x (map_keys m).
Proof.
  induction m as [| [k' v'] m IH]; simpl; [intuition |].
  destruct (Z.eqb_spec k' k) as [-> | Hne]; simpl.
  - intuition.
  - unfold map_keys in IH; rewrite IH; intuition.
Qed.

Lemma map_set_NoDup {V : Type} (k : Z) (v : V) (m : JsMap V) :
  NoDup (map_keys m) -> NoDup (map_keys (map_set k v m)).
Proof.
  induction m as [| [k' v'] m IH]; simpl; intros H.
  - constructor; [intros [] | constructor].
  - inversion H as [| ? ? Hk Hm]; subst.
    destruct (Z.eqb_spec k' k) as [-> | Hne]; simpl.
    + constructor; assumption.
    + constructor; [| apply IH, Hm].
      intros Hin; apply (map_set_keys_In k k' v m) in Hin as [E | Hin];
        [congruence | exact (Hk Hin)].
Qed.

Lemma map_delete_keys_In {V : Type} (k x : Z) (m : JsMap V) :
  In x (map_keys (map_delete k m)) -> In x (map_keys m).
Proof.
  induction m as [| [k' v'] m IH]; simpl; [tauto |].
  destruct (k' =? k); simpl; intuition.
Qed.

Lemma map_delete_NoDup {V : Type} (k : Z) (m : JsMap V) :
  NoDup (map_keys m) -> NoDup (map_keys (map_delete k m)).
Proof.
  induction m as [| [k' v'] m IH]; simpl; intros H; [constructor |].
  inversion H as [| ? ? Hk Hm]; subst.
  destruct (k' =? k); simpl; [apply IH, Hm |].
  constructor; [| apply IH, Hm].
  intros Hin; apply Hk, (map_delete_keys_In k k' m), Hin.
Qed.

Lemma mergeAsk_NoDup (delta : list (Price * Size)) :
  forall tmp : JsMap OrderDetails,
    NoDup (map_keys tmp) -> NoDup (map_keys (fold_left mergeAsk delta tmp)).
Proof.
  induction delta as [| [p s] delta IH]; intros tmp H; simpl; [exact H |].
  apply IH. destruct (s =? 0); [apply map_delete_NoDup | apply map_set_NoDup]; exact H.
Qed.

Lemma mergeBid_NoDup (delta : list (Price * Size)) :
  forall tmp : JsMap OrderDetails,
    NoDup (map_keys tmp) -> NoDup (map_keys (fold_left mergeBid delta tmp)).
Proof.
  induction delta as [| [p s] delta IH]; intros tmp H; simpl; [exact H |].
  apply IH. destruct (s =? 0); [| apply map_set_NoDup]; exact H.
Qed.

Lemma aggregated_wellFormedAsks (l : list (Price * Size)) :
  NoDup (List.map fst l) ->
  wellFormedAsks (runningLevels 0 (array_sort byPriceAsc l)).
Proof.
  intros Hnd; split; [| apply runningLevels_runningFrom].
  rewrite runningLevels_keys.
  apply sorted_keys_filter, sorted_distinct_ascending.
  - apply array_sort_is_sorted; [apply byPriceAsc_total | apply byPriceAsc_trans].
  - apply array_sort_NoDup_keys, Hnd.
Qed.

Lemma aggregated_wellFormedBids (l : list (Price * Size)) :
  NoDup (List.map fst l) ->
  wellFormedBids (runningLevels 0 (array_sort byPriceDesc l)).
Proof.
  intros Hnd; split; [| apply runningLevels_runningFrom].
  rewrite runningLevels_keys.
  apply sorted_keys_filter, sorted_distinct_descending.
  - apply array_sort_is_sorted; [apply byPriceDesc_total | apply byPriceDesc_trans].
  - apply array_sort_NoDup_keys, Hnd.
Qed.

(** A snapshot with distinct prices on each side yields well-formed
    collections. *)
Lemma snapshot_wellFormed (payload : SnapshotPayload) (prevState : OrderBookState)
    (b : Book) :
  NoDup (List.map fst (snap_asks payload)) ->
  NoDup (List.map fst (snap_bids payload)) ->
  handleSnapshotReceived payload prevState = Connected b ->
  wellFormedAsks (asks b) /\ wellFormedBids (bids b).
Proof.
  intros Ha Hb H. injection H as <-. simpl.
  rewrite (aggregate_pairs _ _ Ha), (aggregate_pairs _ _ Hb).
  split; [apply aggregated_wellFormedAsks, Ha | apply aggregated_wellFormedBids, Hb].
Qed.

(** Every accepted delta yields well-formed collections, whatever it holds,
    as long as no key stood twice in the previous collections. *)
Lemma delta_wellFormed (payload : DataUpdatePayload) (prev b : Book) :
  NoDup (map_keys (asks prev)) ->
  NoDup (map_keys (bids prev)) ->
  handleDataUpdate payload (Connected prev) = Ok (Connected b) ->
  wellFormedAsks (asks b) /\ wellFormedBids (bids b).
Proof.
  intros Ha Hb H.
  unfold handleDataUpdate in H; cbn [assert is_Connected bind] in H.
  apply bind_Ok_inv in H as (tb & _ & H).
  apply bind_Ok_inv in H as (ta & _ & H).
  injection H as <-. cbn [asks bids]. unfold map_entries.
  rewrite !fold_fromExisting_rawPairs, rawPairs_sort_asc, rawPairs_sort_desc.
  assert (Ha' : NoDup (List.map fst
                         (rawPairs (fold_left mergeAsk (upd_asks payload)
                                      (map_copy (asks prev)))))).
  { rewrite rawPairs_keys. apply mergeAsk_NoDup. rewrite map_copy_keys; exact Ha. }
  assert (Hb' : NoDup (List.map fst
                         (rawPairs (fold_left mergeBid (upd_bids payload)
                                      (map_copy (bids prev)))))).
  { rewrite rawPairs_keys. apply mergeBid_NoDup. rewrite map_copy_keys; exact Hb. }
  rewrite (aggregate_pairs _ _ Ha'), (aggregate_pairs _ _ Hb').
  split; [apply aggregated_wellFormedAsks, Ha' | apply aggregated_wellFormedBids, Hb'].
Qed.

(** * Further properties of the reducer *)

(** ** Lifecycle of whole runs *)

Lemma step_shape (s s' : OrderBookState) (a : OrderBookActions) :
  orderBookReducer (Some s) a = Ok s' ->
  s' = s \/ s' = initialState \/ exists b, s' = Connected b.
Proof.
  rewrite reducer_cases.
  destruct a; intros H;
    try (injection H as <-; left; reflexivity).
  - injection H as <-; right; right; eexists; reflexivity.
  - destruct s; try discriminate H.
    unfold handleDataUpdate in H; cbn [assert is_Connected bind] in H.
    apply bind_Ok_inv in H as (tb & _ & H).
    apply bind_Ok_inv in H as (ta & _ & H).
    injection H as <-; right; right; eexists; reflexivity.
  - destruct s; try discriminate H.
    unfold handleUpdateLastVisibleBidsIndexChange in H;
      cbn [assert is_Connected bind] in H.
    unfold handleLastVisibleItemIndexChange in H.
    apply bind_Ok_inv in H as (tb & _ & H).
    apply bind_Ok_inv in H as (ta & _ & H).
    injection H as <-; right; right; eexists; reflexivity.
  - destruct s; try discriminate H.
    unfold handleUpdateLastVisibleAsksIndexChange in H;
      cbn [assert is_Connected bind] in H.
    unfold handleLastVisibleItemIndexChange in H.
    apply bind_Ok_inv in H as (tb & _ & H).
    apply bind_Ok_inv in H as (ta & _ & H).
    injection H as <-; right; right; eexists; reflexivity.
  - injection H as <-; right; left; reflexivity.
Qed.

(** X1. A run of the reducer that does not throw ends in the state it
    started from, in [NeverLoaded] or in a [Connected] state: no event leads
    into [ConnectedWaitingForData] or [Disconnected]. The way back to
    [NeverLoaded] is an action the reducer does not know, which resets every
    state, a [Connected] one included. *)
Theorem run_ends_at_start_reset_or_Connected :
  forall (actions : list OrderBookActions) (s s' : OrderBookState),
    dispatchAll s actions = Ok s' ->
    (s' = s \/ s' = initialState \/ exists b, s' = Connected b)
    /\ orderBookReducer (Some s') OtherAction = Ok initialState.
Proof.
  intros actions s s' H; split; [| reflexivity].
  revert s s' H.
  induction actions as [| a rest IH]; intros s s' H; simpl in H.
  - injection H as <-; left; reflexivity.
  - apply bind_Ok_inv in H as (s1 & H1 & H).
    apply IH in H as [-> | [-> | Hc]];
      [exact (step_shape s s1 a H1) | right; left; reflexivity
      | right; right; exact Hc].
Qed.

Lemma run_ends_at_start_reset_or_Connected_witness :
  dispatchAll (Connected book8)
    [DataUpdate (mkDelta [(100, 0); (102, 1)] []); SocketDisconnected; OtherAction]
  = Ok NeverLoaded
  /\ (NeverLoaded = Connected book8
      \/ NeverLoaded = initialState
      \/ exists b, NeverLoaded = Connected b)
  /\ orderBookReducer (Some NeverLoaded) OtherAction = Ok initialState.
Proof.
  split; [reflexivity |].
  apply (run_ends_at_start_reset_or_Connected
           [DataUpdate (mkDelta [(100, 0); (102, 1)] []); SocketDisconnected;
            OtherAction]
           (Connected book8)).
  reflexivity.
Defined.

(** X2. Stream, socket, info, confirmation and unsupported-response events
    are accepted in every state, [Disconnected] and the unloaded states
    included, and any run made of them returns the state it was given. *)
Theorem run_of_no_ops :
  forall (actions : list OrderBookActions) (s : OrderBookState),
    Forall (fun a => isNoOp a = true) actions ->
    dispatchAll s actions = Ok s.
Proof.
  intros actions s H; induction H as [| a rest Ha _ IH]; [reflexivity |].
  simpl. destruct a; try discriminate Ha; simpl; exact IH.
Qed.

Lemma run_of_no_ops_witness :
  Forall (fun a => isNoOp a = true)
    [SocketDisconnected; CloseStream; InfoReceived; SocketConnected]
  /\ dispatchAll (Connected book8)
       [SocketDisconnected; CloseStream; InfoReceived; SocketConnected]
     = Ok (Connected book8).
Proof.
  assert (H : Forall (fun a => isNoOp a = true)
                [SocketDisconnected; CloseStream; InfoReceived; SocketConnected])
    by (repeat constructor).
  split; [exact H |].
  exact (run_of_no_ops _ (Connected book8) H).
Defined.

(** X9. Delivering the same snapshot a second time changes nothing: the
    second pass rebuilds the same collections and keeps the cursors the
    first pass left. *)
Theorem snapshot_twice :
  forall (payload : SnapshotPayload) (s : OrderBookState),
    handleSnapshotReceived payload (handleSnapshotReceived payload s)
    = handleSnapshotReceived payload s.
Proof.
  intros payload s; destruct s; reflexivity.
Qed.

(** ** Outcome of a cursor update *)

Lemma totalAt_throws (m : JsMap CalculatedOrderDetails) (index : Z) :
  totalAt m index = Throw TypeError <-> m = [] \/ index < 0.
Proof.
  split.
  - intros H.
    destruct m as [| e m]; [left; reflexivity |].
    destruct (Z.ltb_spec index 0) as [Hneg | Hpos]; [right; exact Hneg |].
    destruct (totalAt_clamps (e :: m) index) as (level & _ & E);
      [discriminate | exact Hpos | congruence].
  - intros [-> | Hneg]; [apply totalAt_empty |].
    unfold totalAt, array_get.
    destruct (Z.ltb_spec (Z.min index (map_size m - 1)) 0); [reflexivity | lia].
Qed.

Lemma totalAt_outcome (m : JsMap CalculatedOrderDetails) (index : Z) :
  totalAt m index = Throw TypeError
  \/ exists t, totalAt m index = Ok t.
Proof.
  unfold totalAt.
  destruct (array_get (map_values m) (Z.min index (map_size m - 1)));
    [right; eexists; reflexivity | left; reflexivity].
Qed.

Lemma index_change_throws (bidsIndex asksIndex : Z) (prev : Book) :
  handleLastVisibleItemIndexChange bidsIndex asksIndex prev = Throw TypeError
  <-> bids prev = [] \/ bidsIndex < 0 \/ asks prev = [] \/ asksIndex < 0.
Proof.
  unfold handleLastVisibleItemIndexChange.
  pose proof (totalAt_throws (bids prev) bidsIndex) as Tb.
  pose proof (totalAt_throws (asks prev) asksIndex) as Ta.
  destruct (totalAt_outcome (bids prev) bidsIndex) as [Eb | (tb & Eb)];
    rewrite Eb in *; simpl.
  - split; [intros _ | reflexivity].
    destruct (proj1 Tb eq_refl); tauto.
  - destruct (totalAt_outcome (asks prev) asksIndex) as [Ea | (ta & Ea)];
      rewrite Ea in *; simpl.
    + split; [intros _ | reflexivity].
      destruct (proj1 Ta eq_refl); tauto.
    + split; [discriminate |].
      intros [H | [H | [H | H]]].
      * apply (fun x => proj2 Tb (or_introl x)) in H; discriminate H.
      * apply (fun x => proj2 Tb (or_intror x)) in H; discriminate H.
      * apply (fun x => proj2 Ta (or_introl x)) in H; discriminate H.
      * apply (fun x => proj2 Ta (or_intror x)) in H; discriminate H.
Qed.

(** X3. From a [Connected] state a cursor update throws a [TypeError]
    exactly when a side is empty, the new index is negative, or the cursor
    of the other side, which is read again, is negative. *)
Theorem cursor_update_throws_iff :
  forall (prev : Book) (index : Z),
    (orderBookReducer (Some (Connected prev)) (UpdateBidsLastVisibleIndex index)
     = Throw TypeError
     <-> bids prev = [] \/ index < 0
         \/ asks prev = [] \/ lastVisibleAsksIndex (maxTotal prev) < 0)
    /\ (orderBookReducer (Some (Connected prev)) (UpdateAsksLastVisibleIndex index)
        = Throw TypeError
        <-> bids prev = [] \/ lastVisibleBidsIndex (maxTotal prev) < 0
            \/ asks prev = [] \/ index < 0).
Proof.
  intros prev index; rewrite !reducer_cases; split.
  - unfold handleUpdateLastVisibleBidsIndexChange; cbn [assert is_Connected bind].
    apply index_change_throws.
  - unfold handleUpdateLastVisibleAsksIndexChange; cbn [assert is_Connected bind].
    apply index_change_throws.
Qed.

(** X4. On a [Connected] book with a level on each side and an asks cursor
    that is not negative, moving the bids cursor to an index that is not
    negative is accepted. The index is stored as given, not clamped; the
    collections, the product id, the display depth and the asks cursor stay;
    the scale becomes the maximum of the two totals at the clamped cursors. *)
Theorem bids_cursor_update :
  forall (prev : Book) (index : Z),
    asks prev <> [] -> bids prev <> [] ->
    0 <= index -> 0 <= lastVisibleAsksIndex (maxTotal prev) ->
    exists b,
      orderBookReducer (Some (Connected prev)) (UpdateBidsLastVisibleIndex index)
      = Ok (Connected b)
      /\ asks b = asks prev /\ bids b = bids prev
      /\ productId b = productId prev /\ numLevels b = numLevels prev
      /\ lastVisibleBidsIndex (maxTotal b) = index
      /\ lastVisibleAsksIndex (maxTotal b) = lastVisibleAsksIndex (maxTotal prev)
      /\ totalValue (maxTotal b) = specScaleValue b.
Proof.
  intros prev index Ha Hb Hi Hc.
  rewrite reducer_cases. unfold handleUpdateLastVisibleBidsIndexChange;
    cbn [assert is_Connected bind].
  destruct (totalAt_clamps (bids prev) index Hb Hi) as (lb & _ & Eb).
  destruct (totalAt_clamps (asks prev) _ Ha Hc) as (la & _ & Ea).
  unfold handleLastVisibleItemIndexChange; rewrite Eb, Ea; simpl.
  eexists; split; [reflexivity |].
  unfold specScaleValue; simpl.
  rewrite (totalAt_Ok_clamped _ _ _ Eb), (totalAt_Ok_clamped _ _ _ Ea).
  repeat split; try reflexivity. apply Z.max_comm.
Qed.

Lemma bids_cursor_update_witness :
  asks book8 <> [] /\ bids book8 <> []
  /\ 0 <= 7 /\ 0 <= lastVisibleAsksIndex (maxTotal book8)
  /\ exists b,
      orderBookReducer (Some (Connected book8)) (UpdateBidsLastVisibleIndex 7)
      = Ok (Connected b)
      /\ asks b = asks book8 /\ bids b = bids book8
      /\ productId b = productId book8 /\ numLevels b = numLevels book8
      /\ lastVisibleBidsIndex (maxTotal b) = 7
      /\ lastVisibleAsksIndex (maxTotal b) = lastVisibleAsksIndex (maxTotal book8)
      /\ totalValue (maxTotal b) = specScaleValue b.
Proof.
  assert (Ha : asks book8 <> []) by discriminate.
  assert (Hb : bids book8 <> []) by discriminate.
  assert (Hi : 0 <= 7) by lia.
  assert (Hc : 0 <= lastVisibleAsksIndex (maxTotal book8)) by (simpl; lia).
  repeat (split; [assumption |]).
  exact (bids_cursor_update book8 7 Ha Hb Hi Hc).
Defined.

(** X5. The same for the asks cursor: with a level on each side and a bids
    cursor that is not negative, an index that is not negative is accepted and
    stored as given; nothing else but the scale changes, and the scale becomes
    the maximum of the two totals at the clamped cursors. *)
Theorem asks_cursor_update :
  forall (prev : Book) (index : Z),
    asks prev <> [] -> bids prev <> [] ->
    0 <= index -> 0 <= lastVisibleBidsIndex (maxTotal prev) ->
    exists b,
      orderBookReducer (Some (Connected prev)) (UpdateAsksLastVisibleIndex index)
      = Ok (Connected b)
      /\ asks b = asks prev /\ bids b = bids prev
      /\ productId b = productId prev /\ numLevels b = numLevels prev
      /\ lastVisibleAsksIndex (maxTotal b) = index
      /\ lastVisibleBidsIndex (maxTotal b) = lastVisibleBidsIndex (maxTotal prev)
      /\ totalValue (maxTotal b) = specScaleValue b.
Proof.
  intros prev index Ha Hb Hi Hc.
  rewrite reducer_cases. unfold handleUpdateLastVisibleAsksIndexChange;
    cbn [assert is_Connected bind].
  destruct (totalAt_clamps (bids prev) _ Hb Hc) as (lb & _ & Eb).
  destruct (totalAt_clamps (asks prev) index Ha Hi) as (la & _ & Ea).
  unfold handleLastVisibleItemIndexChange; rewrite Eb, Ea; simpl.
  eexists; split; [reflexivity |].
  unfold specScaleValue; simpl.
  rewrite (totalAt_Ok_clamped _ _ _ Eb), (totalAt_Ok_clamped _ _ _ Ea).
  repeat split; try reflexivity. apply Z.max_comm.
Qed.

Lemma asks_cursor_update_witness :
  asks book8 <> [] /\ bids book8 <> []
  /\ 0 <= 0 /\ 0 <= lastVisibleBidsIndex (maxTotal book8)
  /\ exists b,
      orderBookReducer (Some (Connected book8)) (UpdateAsksLastVisibleIndex 0)
      = Ok (Connected b)
      /\ asks b = asks book8 /\ bids b = bids book8
      /\ productId b = productId book8 /\ numLevels b = numLevels book8
      /\ lastVisibleAsksIndex (maxTotal b) = 0
      /\ lastVisibleBidsIndex (maxTotal b) = lastVisibleBidsIndex (maxTotal book8)
      /\ totalValue (maxTotal b) = specScaleValue b.
Proof.
  assert (Ha : asks book8 <> []) by discriminate.
  assert (Hb : bids book8 <> []) by discriminate.
  assert (Hi : 0 <= 0) by lia.
  assert (Hc : 0 <= lastVisibleBidsIndex (maxTotal book8)) by (simpl; lia).
  repeat (split; [assumption |]).
  exact (asks_cursor_update book8 0 Ha Hb Hi Hc).
Defined.

(** X6. On a [Connected] book with a level on each side and cursors that
    are not negative, a bids update and an asks update with indices that are
    not negative give the same state in either order: the state a single
    [handleLastVisibleItemIndexChange] with both indices gives. *)
Theorem cursor_updates_commute :
  forall (prev : Book) (bidsIndex asksIndex : Z),
    asks prev <> [] -> bids prev <> [] ->
    0 <= bidsIndex -> 0 <= asksIndex ->
    0 <= lastVisibleBidsIndex (maxTotal prev) ->
    0 <= lastVisibleAsksIndex (maxTotal prev) ->
    dispatchAll (Connected prev)
      [UpdateBidsLastVisibleIndex bidsIndex; UpdateAsksLastVisibleIndex asksIndex]
    = handleLastVisibleItemIndexChange bidsIndex asksIndex prev
    /\ dispatchAll (Connected prev)
         [UpdateAsksLastVisibleIndex asksIndex; UpdateBidsLastVisibleIndex bidsIndex]
       = handleLastVisibleItemIndexChange bidsIndex asksIndex prev.
Proof.
  intros prev bi ai Ha Hb Hbi Hai Hcb Hca.
  destruct (totalAt_clamps (bids prev) bi Hb Hbi) as (l1 & _ & E1).
  destruct (totalAt_clamps (asks prev) ai Ha Hai) as (l2 & _ & E2).
  destruct (totalAt_clamps (bids prev) _ Hb Hcb) as (l3 & _ & E3).
  destruct (totalAt_clamps (asks prev) _ Ha Hca) as (l4 & _ & E4).
  split; cbn [dispatchAll]; rewrite reducer_cases;
    unfold handleUpdateLastVisibleBidsIndexChange,
           handleUpdateLastVisibleAsksIndexChange,
           handleLastVisibleItemIndexChange;
    cbn [assert is_Connected bind];
    rewrite ?E1, ?E2, ?E3, ?E4; cbn [bind];
    rewrite reducer_cases;
    unfold handleUpdateLastVisibleBidsIndexChange,
           handleUpdateLastVisibleAsksIndexChange,
           handleLastVisibleItemIndexChange;
    cbn [bind asks bids maxTotal
      lastVisibleAsksIndex lastVisibleBidsIndex is_Connected assert];
    rewrite ?E1, ?E2; reflexivity.
Qed.

Lemma cursor_updates_commute_witness :
  asks book8 <> [] /\ bids book8 <> []
  /\ 0 <= 0 /\ 0 <= 3
  /\ 0 <= lastVisibleBidsIndex (maxTotal book8)
  /\ 0 <= lastVisibleAsksIndex (maxTotal book8)
  /\ dispatchAll (Connected book8)
       [UpdateBidsLastVisibleIndex 0; UpdateAsksLastVisibleIndex 3]
     = handleLastVisibleItemIndexChange 0 3 book8
  /\ dispatchAll (Connected book8)
       [UpdateAsksLastVisibleIndex 3; UpdateBidsLastVisibleIndex 0]
     = handleLastVisibleItemIndexChange 0 3 book8.
Proof.
  assert (Ha : asks book8 <> []) by discriminate.
  assert (Hb : bids book8 <> []) by discriminate.
  assert (H0 : 0 <= 0) by lia.
  assert (H3 : 0 <= 3) by lia.
  assert (Hcb : 0 <= lastVisibleBidsIndex (maxTotal book8)) by (simpl; lia).
  assert (Hca : 0 <= lastVisibleAsksIndex (maxTotal book8)) by (simpl; lia).
  split; [exact Ha | split; [exact Hb | split; [exact H0 | split; [exact H3 |
    split; [exact Hcb | split; [exact Hca |]]]]]].
  exact (cursor_updates_commute book8 0 3 Ha Hb H0 H3 Hcb Hca).
Defined.

(** ** The scale a snapshot stores *)



Lemma fold_generate_total (l : list (Price * Size)) :
  forall acc,
    acc_total (fold_left generateCalculatedOrderDetails l acc)
    = grandTotal (acc_total acc) l.
Proof.
  unfold grandTotal.
  induction l as [| [p s] l IH]; intros acc; simpl; [reflexivity |].
  destruct (s =? 0); rewrite IH; reflexivity.
Qed.






Lemma snapshot_totals (cmp : Z * Z -> Z * Z -> Z) (l : list (Price * Size)) :
  acc_total (fold_left generateCalculatedOrderDetails
               (array_sort cmp l) (mkAcc 0 map_new))
  = grandTotal 0 (array_sort cmp l).
Proof. apply fold_generate_total. Qed.



(** The last level of the running-sum construction carries the total the
    aggregator ends with; without a level that total is the one it began
    with. *)
Lemma runningLevels_last (l : list (Price * Size)) :
  forall t,
    match runningLevels t l with
    | [] => grandTotal t l = t
    | e :: m =>
        exists level,
          nth_error (map_values (e :: m)) (List.length m) = Some level
          /\ total level = grandTotal t l
    end.
Proof.
  unfold grandTotal.
  induction l as [| [p s] l IH]; intros t; simpl; [reflexivity |].
  destruct (s =? 0).
  - exact (IH t).
  - specialize (IH (number_add t s)).
    destruct (runningLevels (number_add t s) l) as [| e m].
    + exists (mkCalculated p s (number_add t s)); split; [reflexivity |].
      simpl; symmetry; exact IH.
    + exact IH.
Qed.

Lemma clampedTotal_last_row (l : list (Price * Size)) :
  clampedTotal (runningLevels 0 l) (map_size (runningLevels 0 l) - 1)
  = grandTotal 0 l.
Proof.
  pose proof (runningLevels_last l 0) as H.
  destruct (runningLevels 0 l) as [| e m]; [simpl; symmetry; exact H |].
  destruct H as (level & E & Ht).
  unfold clampedTotal.
  replace (Z.to_nat (Z.min (map_size (e :: m) - 1) (map_size (e :: m) - 1)))
    with (List.length m)
    by (unfold map_size; simpl List.length; lia).
  rewrite E; exact Ht.
Qed.

(** X8. A snapshot with distinct prices on each side that arrives in a state
    other than [Connected] puts both cursors on the last row and stores the
    scale the spec describes: the maximum of the totals at the two cursors. *)
Theorem first_snapshot_scale :
  forall (payload : SnapshotPayload) (prevState : OrderBookState),
    is_Connected prevState = false ->
    NoDup (List.map fst (snap_asks payload)) ->
    NoDup (List.map fst (snap_bids payload)) ->
    exists b,
      handleSnapshotReceived payload prevState = Connected b
      /\ totalValue (maxTotal b) = specScaleValue b.
Proof.
  intros payload prevState Hc Ha Hb.
  eexists; split; [reflexivity |].
  unfold specScaleValue.
  destruct prevState; try discriminate Hc; simpl;
    rewrite !snapshot_totals, (aggregate_pairs _ _ Ha), (aggregate_pairs _ _ Hb),
      !clampedTotal_last_row; reflexivity.
Qed.

Lemma first_snapshot_scale_witness :
  is_Connected ConnectedWaitingForData = false
  /\ NoDup (List.map fst (snap_asks snapshot8))
  /\ NoDup (List.map fst (snap_bids snapshot8))
  /\ exists b,
      handleSnapshotReceived snapshot8 ConnectedWaitingForData = Connected b
      /\ totalValue (maxTotal b) = specScaleValue b.
Proof.
  assert (Hc : is_Connected ConnectedWaitingForData = false) by reflexivity.
  assert (Ha : NoDup (List.map fst (snap_asks snapshot8))) by distinct_keys.
  assert (Hb : NoDup (List.map fst (snap_bids snapshot8))) by distinct_keys.
  split; [exact Hc | split; [exact Ha | split; [exact Hb |]]].
  exact (first_snapshot_scale snapshot8 ConnectedWaitingForData Hc Ha Hb).
Defined.

(** ** Totals of sizes that add up exactly *)





(** ** What every state of a run satisfies *)

Lemma map_set_Forall {V : Type} (P : Z * V -> Prop) (k : Z) (v : V)
    (m : JsMap V) :
  Forall P m -> P (k, v) -> Forall P (map_set k v m).
Proof.
  intros Hm Hkv; induction Hm as [| [k' v'] m Hx Hm IH]; simpl.
  - constructor; [exact Hkv | constructor].
  - destruct (Z.eqb_spec k' k) as [-> | _]; constructor; assumption.
Qed.

Lemma fold_generate_sound (l : list (Price * Size)) :
  forall acc,
    entriesSound (acc_map acc) ->
    entriesSound (acc_map (fold_left generateCalculatedOrderDetails l acc)).
Proof.
  induction l as [| [p s] l IH]; intros acc H; simpl; [exact H |].
  destruct (Z.eqb_spec s 0) as [_ | Hs]; apply IH; [exact H |].
  destruct H as (Hnd & Hall); simpl; split.
  - apply map_set_NoDup, Hnd.
  - apply map_set_Forall; [exact Hall | simpl; split; [reflexivity | exact Hs]].
Qed.

Lemma runningFrom_entries (m : JsMap CalculatedOrderDetails) :
  forall t,
    runningFrom t m ->
    Forall (fun e => price (snd e) = fst e /\ size (snd e) <> 0) m.
Proof.
  induction m as [| [k level] m IH]; intros t H; [constructor |].
  destruct H as (Hk & Hs & _ & H).
  constructor; [simpl; split; assumption | exact (IH _ H)].
Qed.

Lemma wellFormedAsks_sound (m : JsMap CalculatedOrderDetails) :
  wellFormedAsks m -> entriesSound m.
Proof.
  intros [Hsorted Hrun]; split; [| exact (runningFrom_entries m 0 Hrun)].
  apply (sorted_keys_NoDup Z.lt); [intros k; lia | exact Hsorted].
Qed.

Lemma wellFormedBids_sound (m : JsMap CalculatedOrderDetails) :
  wellFormedBids m -> entriesSound m.
Proof.
  intros [Hsorted Hrun]; split; [| exact (runningFrom_entries m 0 Hrun)].
  apply (sorted_keys_NoDup Z.gt); [intros k; lia | exact Hsorted].
Qed.

Lemma delta_Ok_Connected (payload : DataUpdatePayload) (s s' : OrderBookState) :
  handleDataUpdate payload s = Ok s' ->
  exists prev b, s = Connected prev /\ s' = Connected b.
Proof.
  intros H. destruct s; try discriminate H.
  unfold handleDataUpdate in H; cbn [assert is_Connected bind] in H.
  apply bind_Ok_inv in H as (tb & _ & H).
  apply bind_Ok_inv in H as (ta & _ & H).
  injection H as <-; eexists; eexists; split; reflexivity.
Qed.

Lemma index_change_Ok (bidsIndex asksIndex : Z) (prev : Book)
    (s' : OrderBookState) :
  handleLastVisibleItemIndexChange bidsIndex asksIndex prev = Ok s' ->
  exists b, s' = Connected b /\ asks b = asks prev /\ bids b = bids prev.
Proof.
  unfold handleLastVisibleItemIndexChange; intros H.
  apply bind_Ok_inv in H as (tb & _ & H).
  apply bind_Ok_inv in H as (ta & _ & H).
  injection H as <-; eexists; repeat split; reflexivity.
Qed.

(** One accepted event keeps the collections of a [Connected] state unless
    it is a snapshot, a delta or an action the reducer does not know. *)
Lemma step_collections (s s' : OrderBookState) (a : OrderBookActions) :
  orderBookReducer (Some s) a = Ok s' ->
  match a with
  | SnapshotReceived payload => s' = handleSnapshotReceived payload s
  | DataUpdate payload => handleDataUpdate payload s = Ok s'
  | OtherAction => s' = initialState
  | _ =>
      s' = s
      \/ exists prev b,
          s = Connected prev /\ s' = Connected b
          /\ asks b = asks prev /\ bids b = bids prev
  end.
Proof.
  rewrite reducer_cases.
  destruct a; intros H;
    try (injection H as <-; (reflexivity || (left; reflexivity))).
  - exact H.
  - destruct s; try discriminate H.
    unfold handleUpdateLastVisibleBidsIndexChange in H;
      cbn [assert is_Connected bind] in H.
    apply index_change_Ok in H as (b' & -> & Ea & Eb).
    right; eexists; eexists; repeat split; assumption.
  - destruct s; try discriminate H.
    unfold handleUpdateLastVisibleAsksIndexChange in H;
      cbn [assert is_Connected bind] in H.
    apply index_change_Ok in H as (b' & -> & Ea & Eb).
    right; eexists; eexists; repeat split; assumption.
Qed.

Lemma step_sound (s s' : OrderBookState) (a : OrderBookActions) :
  stateSound s -> orderBookReducer (Some s) a = Ok s' -> stateSound s'.
Proof.
  intros Hs H; apply step_collections in H.
  destruct a;
    try (destruct H as [-> | (prev & b & -> & -> & Ea & Eb)];
         [exact Hs | simpl in *; rewrite Ea, Eb; exact Hs]).
  - subst s'. simpl; split; apply fold_generate_sound;
      (split; [constructor | constructor]).
  - destruct (delta_Ok_Connected _ _ _ H) as (prev & b & -> & ->).
    destruct Hs as [[Ha _] [Hb _]].
    destruct (delta_wellFormed payload prev b Ha Hb H) as [Wa Wb].
    split; [apply wellFormedAsks_sound, Wa | apply wellFormedBids_sound, Wb].
  - subst s'; exact I.
Qed.

(** X11. In every state a run reaches from a sound one, and so in every
    state reached from [NeverLoaded], the two collections are maps (no price
    twice), every level is stored under its own price, and no level has size
    0, whatever the snapshots and deltas of the run hold. *)
Theorem run_keeps_collections_sound :
  forall (actions : list OrderBookActions) (s s' : OrderBookState),
    stateSound s ->
    dispatchAll s actions = Ok s' ->
    stateSound s'.
Proof.
  induction actions as [| a rest IH]; intros s s' Hs H; simpl in H.
  - injection H as <-; exact Hs.
  - apply bind_Ok_inv in H as (s1 & H1 & H).
    exact (IH s1 s' (step_sound s s1 a Hs H1) H).
Qed.

Lemma run_keeps_collections_sound_witness :
  stateSound initialState
  /\ dispatchAll initialState
       [SnapshotReceived repeatedPriceSnapshot;
        DataUpdate (mkDelta [(101, 4); (100, 0)] [(99, 0); (98, 2)])]
     = Ok (Connected
             (mkBook [(101, mkCalculated 101 4 4)]
                     [(99, mkCalculated 99 1 1); (98, mkCalculated 98 2 3)]
                     "BTC-USD"%string 2 (mkMaxTotal 0 0 4)))
  /\ stateSound
       (Connected
          (mkBook [(101, mkCalculated 101 4 4)]
                  [(99, mkCalculated 99 1 1); (98, mkCalculated 98 2 3)]
                  "BTC-USD"%string 2 (mkMaxTotal 0 0 4))).
Proof.
  assert (H0 : stateSound initialState) by exact I.
  split; [exact H0 | split; [reflexivity |]].
  apply (run_keeps_collections_sound
           [SnapshotReceived repeatedPriceSnapshot;
            DataUpdate (mkDelta [(101, 4); (100, 0)] [(99, 0); (98, 2)])]
           initialState _ H0).
  reflexivity.
Defined.

Lemma step_wellFormed (s s' : OrderBookState) (a : OrderBookActions) :
  stateWellFormed s -> distinctPrices a ->
  orderBookReducer (Some s) a = Ok s' -> stateWellFormed s'.
Proof.
  intros Hs Hd H; apply step_collections in H.
  destruct a;
    try (destruct H as [-> | (prev & b & -> & -> & Ea & Eb)];
         [exact Hs | simpl in *; rewrite Ea, Eb; exact Hs]).
  - destruct Hd as [Da Db].
    subst s'. exact (snapshot_wellFormed payload s _ Da Db eq_refl).
  - destruct (delta_Ok_Connected _ _ _ H) as (prev & b & -> & ->).
    destruct Hs as [Wa Wb].
    apply (delta_wellFormed payload prev b); [| | exact H].
    + exact (proj1 (wellFormedAsks_sound _ Wa)).
    + exact (proj1 (wellFormedBids_sound _ Wb)).
  - subst s'; exact I.
Qed.

(** X12. As long as every snapshot of a run names no price twice on either
    side, every state the run reaches from a well-formed one (and so from
    [NeverLoaded]) has well-formed collections: asks in strictly ascending
    and bids in strictly descending order of price, levels keyed by their
    price with sizes other than 0, totals equal to the running sums.  The
    deltas of the run may hold anything. *)
Theorem run_keeps_collections_wellFormed :
  forall (actions : list OrderBookActions) (s s' : OrderBookState),
    stateWellFormed s ->
    Forall distinctPrices actions ->
    dispatchAll s actions = Ok s' ->
    stateWellFormed s'.
Proof.
  induction actions as [| a rest IH]; intros s s' Hs Hd H; simpl in H.
  - injection H as <-; exact Hs.
  - inversion Hd as [| ? ? Ha Hrest]; subst.
    apply bind_Ok_inv in H as (s1 & H1 & H).
    exact (IH s1 s' (step_wellFormed s s1 a Hs Ha H1) Hrest H).
Qed.

Lemma run_keeps_collections_wellFormed_witness :
  stateWellFormed initialState
  /\ Forall distinctPrices
       [SnapshotReceived snapshot8;
        DataUpdate (mkDelta [(100, 0); (102, 1); (102, 6)] [(97, 2)]);
        UpdateAsksLastVisibleIndex 0]
  /\ dispatchAll initialState
       [SnapshotReceived snapshot8;
        DataUpdate (mkDelta [(100, 0); (102, 1); (102, 6)] [(97, 2)]);
        UpdateAsksLastVisibleIndex 0]
     = Ok (Connected
             (mkBook [(101, mkCalculated 101 2 2); (102, mkCalculated 102 6 8)]
                     [(99, mkCalculated 99 1 1); (98, mkCalculated 98 4 5);
                      (97, mkCalculated 97 2 7)]
                     "BTC-USD"%string 2 (mkMaxTotal 0 1 5)))
  /\ stateWellFormed
       (Connected
          (mkBook [(101, mkCalculated 101 2 2); (102, mkCalculated 102 6 8)]
                  [(99, mkCalculated 99 1 1); (98, mkCalculated 98 4 5);
                   (97, mkCalculated 97 2 7)]
                  "BTC-USD"%string 2 (mkMaxTotal 0 1 5))).
Proof.
  assert (H0 : stateWellFormed initialState) by exact I.
  assert (Hd : Forall distinctPrices
                 [SnapshotReceived snapshot8;
                  DataUpdate (mkDelta [(100, 0); (102, 1); (102, 6)] [(97, 2)]);
                  UpdateAsksLastVisibleIndex 0]).
  { constructor; [split; distinct_keys |].
    constructor; [exact I |]. constructor; [exact I | constructor]. }
  split; [exact H0 | split; [exact Hd | split; [reflexivity |]]].
  apply (run_keeps_collections_wellFormed _ initialState _ H0 Hd).
  reflexivity.
Defined.

(** ** What a delta leaves in the collections *)

Lemma map_get_set {V : Type} (k k' : Z) (v : V) (m : JsMap V) :
  map_get k (map_set k' v m) = if k' =? k then Some v else map_get k m.
Proof.
  induction m as [| [k0 v0] m IH]; simpl; [reflexivity |].
  destruct (Z.eqb_spec k0 k') as [-> | Hne]; simpl.
  - destruct (k' =? k); reflexivity.
  - rewrite IH.
    destruct (Z.eqb_spec k0 k) as [-> | _]; [| reflexivity].
    destruct (Z.eqb_spec k' k); [congruence | reflexivity].
Qed.

Lemma map_get_delete {V : Type} (k k' : Z) (m : JsMap V) :
  map_get k (map_delete k' m) = if k' =? k then None else map_get k m.
Proof.
  induction m as [| [k0 v0] m IH]; simpl.
  - destruct (k' =? k); reflexivity.
  - destruct (Z.eqb_spec k0 k') as [-> | Hne]; simpl.
    + rewrite IH. destruct (k' =? k); reflexivity.
    + rewrite IH.
      destruct (Z.eqb_spec k0 k) as [-> | _]; [| reflexivity].
      destruct (Z.eqb_spec k' k); [congruence | reflexivity].
Qed.

(** After the asks loop, a price holds what the last pair naming it says:
    nothing for size 0, a raw entry of that size otherwise; a price the delta
    does not name holds what it held. *)
Lemma mergeAsk_get (p : Price) (delta : list (Price * Size)) :
  forall tmp : JsMap OrderDetails,
    map_get p (fold_left mergeAsk delta tmp)
    = match lastSize p delta with
      | Some s => if s =? 0 then None else Some (Raw (mkRaw p s))
      | None => map_get p tmp
      end.
Proof.
  induction delta as [| [q s] rest IH]; intros tmp; [reflexivity |].
  simpl fold_left; rewrite IH; simpl lastSize.
  destruct (lastSize p rest) as [s' |]; [reflexivity |].
  unfold mergeAsk.
  destruct (Z.eqb_spec s 0) as [-> | Hs].
  - rewrite map_get_delete. destruct (q =? p); reflexivity.
  - rewrite map_get_set.
    destruct (Z.eqb_spec q p) as [-> | _]; [| reflexivity].
    destruct (Z.eqb_spec s 0); [contradiction | reflexivity].
Qed.

(** The bids loop is the asks loop on the pairs whose size is not 0. *)
Lemma mergeBid_as_mergeAsk (delta : list (Price * Size)) :
  forall tmp : JsMap OrderDetails,
    fold_left mergeBid delta tmp = fold_left mergeAsk (filter nonZero delta) tmp.
Proof.
  induction delta as [| [q s] rest IH]; intros tmp; [reflexivity |].
  simpl. unfold nonZero at 1; simpl.
  destruct (Z.eqb_spec s 0) as [-> | Hs]; simpl; [apply IH |].
  rewrite IH. destruct (Z.eqb_spec s 0); [contradiction | reflexivity].
Qed.

Lemma rawPairs_get (tmp : JsMap OrderDetails) (p s : Z) :
  NoDup (map_keys tmp) ->
  (In (p, s) (rawPairs tmp) <-> option_map od_size (map_get p tmp) = Some s).
Proof.
  induction tmp as [| [k v] tmp IH]; simpl; intros Hnd.
  - split; [contradiction | discriminate].
  - inversion Hnd as [| ? ? Hk Hnd']; subst.
    destruct (Z.eqb_spec k p) as [-> | Hne]; simpl.
    + split.
      * intros [E | Hin]; [injection E as <-; reflexivity |].
        exfalso; apply Hk. rewrite <- rawPairs_keys.
        apply in_map_iff; exists (p, s); split; [reflexivity | exact Hin].
      * intros E; injection E as <-; left; reflexivity.
    + rewrite <- (IH Hnd'). split; [| tauto].
      intros [E | Hin]; [injection E as E _; contradiction | exact Hin].
Qed.

Lemma map_copy_get (m : JsMap CalculatedOrderDetails) (p : Price) :
  option_map od_size (map_get p (map_copy m)) = sizeAt p m.
Proof.
  unfold sizeAt.
  induction m as [| [k level] m IH]; simpl; [reflexivity |].
  destruct (k =? p); [reflexivity | exact IH].
Qed.

(** The pairs a side holds once the asks loop and the aggregator have run *)
Lemma merged_asks_pairs (delta : list (Price * Size))
    (m : JsMap CalculatedOrderDetails) (p s : Z) :
  NoDup (map_keys m) ->
  In (p, s)
     (ownPairs
        (runningLevels 0
           (array_sort byPriceAsc
              (rawPairs (fold_left mergeAsk delta (map_copy m))))))
  <-> s <> 0 /\ mergedSize p delta m = Some s.
Proof.
  intros Hnd.
  rewrite runningLevels_members, rawPairs_get
    by (apply mergeAsk_NoDup; rewrite map_copy_keys; exact Hnd).
  rewrite mergeAsk_get. unfold mergedSize.
  destruct (lastSize p delta) as [s' |].
  - destruct (Z.eqb_spec s' 0) as [-> | Hs']; simpl; split;
      intros [H1 H2]; try discriminate; split; congruence.
  - rewrite map_copy_get; tauto.
Qed.

Lemma merged_bids_pairs (delta : list (Price * Size))
    (m : JsMap CalculatedOrderDetails) (p s : Z) :
  NoDup (map_keys m) ->
  In (p, s)
     (ownPairs
        (runningLevels 0
           (array_sort byPriceDesc
              (rawPairs (fold_left mergeBid delta (map_copy m))))))
  <-> s <> 0 /\ mergedSize p (filter nonZero delta) m = Some s.
Proof.
  intros Hnd.
  rewrite mergeBid_as_mergeAsk.
  rewrite runningLevels_members, rawPairs_get
    by (apply mergeAsk_NoDup; rewrite map_copy_keys; exact Hnd).
  rewrite mergeAsk_get. unfold mergedSize.
  destruct (lastSize p (filter nonZero delta)) as [s' |].
  - destruct (Z.eqb_spec s' 0) as [-> | Hs']; simpl; split;
      intros [H1 H2]; try discriminate; split; congruence.
  - rewrite map_copy_get; tauto.
Qed.

Lemma delta_collections (payload : DataUpdatePayload) (prev b : Book) :
  NoDup (map_keys (asks prev)) ->
  NoDup (map_keys (bids prev)) ->
  handleDataUpdate payload (Connected prev) = Ok (Connected b) ->
  asks b
  = runningLevels 0
      (array_sort byPriceAsc
         (rawPairs (fold_left mergeAsk (upd_asks payload) (map_copy (asks prev)))))
  /\ bids b
     = runningLevels 0
         (array_sort byPriceDesc
            (rawPairs (fold_left mergeBid (upd_bids payload) (map_copy (bids prev))))).
Proof.
  intros Ha Hb H.
  unfold handleDataUpdate in H; cbn [assert is_Connected bind] in H.
  apply bind_Ok_inv in H as (tb & _ & H).
  apply bind_Ok_inv in H as (ta & _ & H).
  injection H as <-. cbn [asks bids]. unfold map_entries.
  rewrite !fold_fromExisting_rawPairs, rawPairs_sort_asc, rawPairs_sort_desc.
  split; apply aggregate_pairs; rewrite rawPairs_keys.
  - apply mergeAsk_NoDup. rewrite map_copy_keys; exact Ha.
  - apply mergeBid_NoDup. rewrite map_copy_keys; exact Hb.
Qed.

(** X13. After an accepted delta the asks hold the pair (p, s) exactly when
    s is not 0 and s is the size the last ask of the delta naming p gives,
    or, when the delta does not name p, the size p had before. So a later
    pair for a price overrides an earlier one, a size replaces the stored
    size instead of adding to it, and a final size of 0 removes the price. *)
Theorem delta_asks_content :
  forall (payload : DataUpdatePayload) (prev b : Book),
    NoDup (map_keys (asks prev)) ->
    NoDup (map_keys (bids prev)) ->
    handleDataUpdate payload (Connected prev) = Ok (Connected b) ->
    forall p s,
      In (p, s) (ownPairs (asks b))
      <-> s <> 0 /\ mergedSize p (upd_asks payload) (asks prev) = Some s.
Proof.
  intros payload prev b Ha Hb H p s.
  destruct (delta_collections payload prev b Ha Hb H) as [-> _].
  apply merged_asks_pairs, Ha.
Qed.

(** X14. After an accepted delta the bids hold the pair (p, s) exactly when
    s is not 0 and s is the size the last bid of the delta naming p with a
    size other than 0 gives, or, when there is no such bid, the size p had
    before. Bids of size 0 play no part: the loop passes them over. *)
Theorem delta_bids_content :
  forall (payload : DataUpdatePayload) (prev b : Book),
    NoDup (map_keys (asks prev)) ->
    NoDup (map_keys (bids prev)) ->
    handleDataUpdate payload (Connected prev) = Ok (Connected b) ->
    forall p s,
      In (p, s) (ownPairs (bids b))
      <-> s <> 0
          /\ mergedSize p (filter nonZero (upd_bids payload)) (bids prev) = Some s.
Proof.
  intros payload prev b Ha Hb H p s.
  destruct (delta_collections payload prev b Ha Hb H) as [_ ->].
  apply merged_bids_pairs, Hb.
Qed.

Lemma delta_asks_content_witness :
  NoDup (map_keys (asks book8))
  /\ NoDup (map_keys (bids book8))
  /\ handleDataUpdate delta8 (Connected book8) = Ok (Connected book8_after)
  /\ forall p s,
      In (p, s) (ownPairs (asks book8_after))
      <-> s <> 0 /\ mergedSize p (upd_asks delta8) (asks book8) = Some s.
Proof.
  assert (Ha : NoDup (map_keys (asks book8))) by distinct_keys.
  assert (Hb : NoDup (map_keys (bids book8))) by distinct_keys.
  assert (H : handleDataUpdate delta8 (Connected book8) = Ok (Connected book8_after))
    by reflexivity.
  split; [exact Ha | split; [exact Hb | split; [exact H |]]].
  exact (delta_asks_content delta8 book8 book8_after Ha Hb H).
Defined.

Lemma delta_bids_content_witness :
  NoDup (map_keys (asks book8))
  /\ NoDup (map_keys (bids book8))
  /\ handleDataUpdate delta8 (Connected book8) = Ok (Connected book8_after)
  /\ forall p s,
      In (p, s) (ownPairs (bids book8_after))
      <-> s <> 0
          /\ mergedSize p (filter nonZero (upd_bids delta8)) (bids book8) = Some s.
Proof.
  assert (Ha : NoDup (map_keys (asks book8))) by distinct_keys.
  assert (Hb : NoDup (map_keys (bids book8))) by distinct_keys.
  assert (H : handleDataUpdate delta8 (Connected book8) = Ok (Connected book8_after))
    by reflexivity.
  split; [exact Ha | split; [exact Hb | split; [exact H |]]].
  exact (delta_bids_content delta8 book8 book8_after Ha Hb H).
Defined.

(** ** When a delta is accepted, and what a repeated delta does *)

Lemma aggregate_existing (cmp : forall V : Type, Z * V -> Z * V -> Z)
    (tmp : JsMap OrderDetails) :
  (forall l, rawPairs (array_sort (cmp OrderDetails) l)
             = array_sort (cmp Z) (rawPairs l)) ->
  NoDup (map_keys tmp) ->
  acc_map
    (fold_left generateCalculatedOrderDetailsFromExisting
       (array_sort (cmp OrderDetails) (map_entries tmp)) (mkAcc 0 map_new))
  = runningLevels 0 (array_sort (cmp Z) (rawPairs tmp)).
Proof.
  intros Hcmp Hnd. unfold map_entries.
  rewrite fold_fromExisting_rawPairs, Hcmp.
  apply aggregate_pairs. rewrite rawPairs_keys; exact Hnd.
Qed.

(** The delta handler on a [Connected] state whose maps hold no key twice,
    with the two new collections named. *)
Lemma delta_unfold (payload : DataUpdatePayload) (prev : Book) :
  NoDup (map_keys (asks prev)) ->
  NoDup (map_keys (bids prev)) ->
  handleDataUpdate payload (Connected prev)
  = (tb <- totalAt (mergedBids (upd_bids payload) (bids prev))
             (lastVisibleBidsIndex (maxTotal prev)) ;;
     ta <- totalAt (mergedAsks (upd_asks payload) (asks prev))
             (lastVisibleAsksIndex (maxTotal prev)) ;;
     Ok (Connected
           (mkBook (mergedAsks (upd_asks payload) (asks prev))
                   (mergedBids (upd_bids payload) (bids prev))
                   (productId prev) (numLevels prev)
                   (mkMaxTotal (lastVisibleAsksIndex (maxTotal prev))
                               (lastVisibleBidsIndex (maxTotal prev))
                               (Z.max tb ta))))).
Proof.
  intros Ha Hb.
  unfold handleDataUpdate, mergedAsks, mergedBids; cbn [assert is_Connected bind].
  rewrite (aggregate_existing (@byPriceAsc) _ rawPairs_sort_asc)
    by (apply mergeAsk_NoDup; rewrite map_copy_keys; exact Ha).
  rewrite (aggregate_existing (@byPriceDesc) _ rawPairs_sort_desc)
    by (apply mergeBid_NoDup; rewrite map_copy_keys; exact Hb).
  reflexivity.
Qed.

Lemma mergedAsks_pairs (delta : list (Price * Size))
    (m : JsMap CalculatedOrderDetails) (p s : Z) :
  NoDup (map_keys m) ->
  (In (p, s) (ownPairs (mergedAsks delta m))
   <-> s <> 0 /\ mergedSize p delta m = Some s).
Proof. apply merged_asks_pairs. Qed.

Lemma mergedBids_pairs (delta : list (Price * Size))
    (m : JsMap CalculatedOrderDetails) (p s : Z) :
  NoDup (map_keys m) ->
  (In (p, s) (ownPairs (mergedBids delta m))
   <-> s <> 0 /\ mergedSize p (filter nonZero delta) m = Some s).
Proof. apply merged_bids_pairs. Qed.

Lemma mergedAsks_wellFormed (delta : list (Price * Size))
    (m : JsMap CalculatedOrderDetails) :
  NoDup (map_keys m) -> wellFormedAsks (mergedAsks delta m).
Proof.
  intros Hnd. apply aggregated_wellFormedAsks.
  rewrite rawPairs_keys. apply mergeAsk_NoDup. rewrite map_copy_keys; exact Hnd.
Qed.

Lemma mergedBids_wellFormed (delta : list (Price * Size))
    (m : JsMap CalculatedOrderDetails) :
  NoDup (map_keys m) -> wellFormedBids (mergedBids delta m).
Proof.
  intros Hnd. apply aggregated_wellFormedBids.
  rewrite rawPairs_keys. apply mergeBid_NoDup. rewrite map_copy_keys; exact Hnd.
Qed.

Lemma lastSize_In (p : Price) (delta : list (Price * Size)) (s : Size) :
  lastSize p delta = Some s -> In (p, s) delta.
Proof.
  induction delta as [| [q s0] rest IH]; simpl; [discriminate |].
  destruct (lastSize p rest) as [s' |].
  - intros H; right; apply IH; exact H.
  - destruct (Z.eqb_spec q p) as [-> | _]; [| discriminate].
    intros H; injection H as <-; left; reflexivity.
Qed.

Lemma ownPairs_nonempty (m : JsMap CalculatedOrderDetails) (e : Price * Size) :
  In e (ownPairs m) -> m <> [].
Proof.
  destruct m; [intros [] | discriminate].
Qed.

(** A side that holds a level still holds one after a merge in which every
    pair of the delta list has a size other than 0. *)
Lemma merged_stays_nonempty (delta : list (Price * Size))
    (m : JsMap CalculatedOrderDetails) :
  entriesSound m -> m <> [] ->
  Forall (fun e => snd e <> 0) delta ->
  exists p s, s <> 0 /\ mergedSize p delta m = Some s.
Proof.
  intros [_ Hall] Hm Hd.
  destruct m as [| [k level] m]; [contradiction |].
  inversion Hall as [| ? ? [_ Hs] _]; subst; simpl in Hs.
  exists k. unfold mergedSize.
  destruct (lastSize k delta) as [s' |] eqn:E.
  - exists s'; split; [| reflexivity].
    apply lastSize_In in E. rewrite Forall_forall in Hd.
    exact (Hd (k, s') E).
  - exists (size level); split; [exact Hs |].
    unfold sizeAt; simpl. rewrite Z.eqb_refl; reflexivity.
Qed.

(** X15. A delta without removals is accepted on a populated book: when the
    collections are sound, each side holds a level, the cursors are not
    negative and no ask of the delta has size 0, the delta handler returns a
    [Connected] state (bids of size 0 are passed over, so they cannot empty
    the bids side). *)
Theorem delta_without_removals_is_accepted :
  forall (payload : DataUpdatePayload) (prev : Book),
    entriesSound (asks prev) ->
    entriesSound (bids prev) ->
    asks prev <> [] ->
    bids prev <> [] ->
    0 <= lastVisibleAsksIndex (maxTotal prev) ->
    0 <= lastVisibleBidsIndex (maxTotal prev) ->
    Forall (fun e => snd e <> 0) (upd_asks payload) ->
    exists b, handleDataUpdate payload (Connected prev) = Ok (Connected b).
Proof.
  intros payload prev Sa Sb Ha Hb Hca Hcb Hd.
  rewrite (delta_unfold payload prev (proj1 Sa) (proj1 Sb)).
  assert (Na : mergedAsks (upd_asks payload) (asks prev) <> []).
  { destruct (merged_stays_nonempty _ _ Sa Ha Hd) as (p & s & Hs & E).
    apply (ownPairs_nonempty _ (p, s)).
    apply mergedAsks_pairs; [exact (proj1 Sa) | split; assumption]. }
  assert (Nb : mergedBids (upd_bids payload) (bids prev) <> []).
  { assert (Hf : Forall (fun e => snd e <> 0) (filter nonZero (upd_bids payload))).
    { apply Forall_forall; intros [q s] Hq.
      apply filter_In in Hq as [_ Hq]. apply nonZero_spec in Hq; exact Hq. }
    destruct (merged_stays_nonempty _ _ Sb Hb Hf) as (p & s & Hs & E).
    apply (ownPairs_nonempty _ (p, s)).
    apply mergedBids_pairs; [exact (proj1 Sb) | split; assumption]. }
  destruct (totalAt_clamps _ _ Nb Hcb) as (lb & _ & ->).
  destruct (totalAt_clamps _ _ Na Hca) as (la & _ & ->).
  eexists; reflexivity.
Qed.

Lemma delta_without_removals_is_accepted_witness :
  entriesSound (asks book8)
  /\ entriesSound (bids book8)
  /\ asks book8 <> []
  /\ bids book8 <> []
  /\ 0 <= lastVisibleAsksIndex (maxTotal book8)
  /\ 0 <= lastVisibleBidsIndex (maxTotal book8)
  /\ Forall (fun e => snd e <> 0) (upd_asks (mkDelta [(100, 9); (103, 1)] [(99, 0)]))
  /\ exists b,
      handleDataUpdate (mkDelta [(100, 9); (103, 1)] [(99, 0)]) (Connected book8)
      = Ok (Connected b).
Proof.
  assert (Sa : entriesSound (asks book8)) by sound_entries.
  assert (Sb : entriesSound (bids book8)) by sound_entries.
  assert (Ha : asks book8 <> []) by discriminate.
  assert (Hb : bids book8 <> []) by discriminate.
  assert (Hca : 0 <= lastVisibleAsksIndex (maxTotal book8)) by (simpl; lia).
  assert (Hcb : 0 <= lastVisibleBidsIndex (maxTotal book8)) by (simpl; lia).
  assert (Hd : Forall (fun e => snd e <> 0)
                 (upd_asks (mkDelta [(100, 9); (103, 1)] [(99, 0)])))
    by (repeat constructor; simpl; lia).
  split; [exact Sa | split; [exact Sb | split; [exact Ha | split; [exact Hb |
    split; [exact Hca | split; [exact Hcb | split; [exact Hd |]]]]]]].
  exact (delta_without_removals_is_accepted _ book8 Sa Sb Ha Hb Hca Hcb Hd).
Defined.

(** Two lists of pairs whose prices are in the same strict order and that
    have the same members are the same list. *)
Lemma sorted_pairs_unique (R : Z -> Z -> Prop) :
  (forall a b, R a b -> R b a -> False) ->
  forall l1 l2 : list (Z * Z),
    StronglySorted R (List.map fst l1) ->
    StronglySorted R (List.map fst l2) ->
    (forall e, In e l1 <-> In e l2) ->
    l1 = l2.
Proof.
  intros Hasym.
  assert (Hhead : forall (x : Z * Z) l, StronglySorted R (List.map fst (x :: l)) ->
                    forall y, In y l -> R (fst x) (fst y)).
  { intros x l H y Hy. simpl in H. inversion H as [| ? ? _ Hx]; subst.
    rewrite Forall_forall in Hx. apply Hx, in_map, Hy. }
  induction l1 as [| x l1 IH]; intros l2 S1 S2 Hmem.
  - destruct l2 as [| y l2]; [reflexivity |].
    exfalso; apply (proj2 (Hmem y)); left; reflexivity.
  - destruct l2 as [| y l2].
    + exfalso; apply (proj1 (Hmem x)); left; reflexivity.
    + assert (E : x = y).
      { destruct (proj1 (Hmem x) (or_introl eq_refl)) as [E | Hx]; [congruence |].
        destruct (proj2 (Hmem y) (or_introl eq_refl)) as [E | Hy]; [exact E |].
        exfalso. exact (Hasym _ _ (Hhead x l1 S1 y Hy) (Hhead y l2 S2 x Hx)). }
      subst y. f_equal.
      simpl in S1, S2.
      inversion S1 as [| ? ? S1' _]; inversion S2 as [| ? ? S2' _]; subst.
      apply IH; [exact S1' | exact S2' |].
      intros e; split; intros He.
      * destruct (proj1 (Hmem e) (or_intror He)) as [E | H]; [| exact H].
        subst e. exfalso.
        exact (Hasym _ _ (Hhead x l1 S1 x He) (Hhead x l1 S1 x He)).
      * destruct (proj2 (Hmem e) (or_intror He)) as [E | H]; [| exact H].
        subst e. exfalso.
        exact (Hasym _ _ (Hhead x l2 S2 x He) (Hhead x l2 S2 x He)).
Qed.

(** A well-formed collection is determined by the pairs it holds. *)
Lemma wellFormed_unique (R : Z -> Z -> Prop)
    (m1 m2 : JsMap CalculatedOrderDetails) :
  (forall a b, R a b -> R b a -> False) ->
  StronglySorted R (map_keys m1) -> runningFrom 0 m1 ->
  StronglySorted R (map_keys m2) -> runningFrom 0 m2 ->
  (forall e, In e (ownPairs m1) <-> In e (ownPairs m2)) ->
  m1 = m2.
Proof.
  intros Hasym S1 R1 S2 R2 Hmem.
  rewrite <- (runningFrom_runningLevels m1 0 R1).
  rewrite <- (runningFrom_runningLevels m2 0 R2).
  f_equal. apply (sorted_pairs_unique R Hasym).
  - rewrite (ownPairs_keys m1 0 R1); exact S1.
  - rewrite (ownPairs_keys m2 0 R2); exact S2.
  - exact Hmem.
Qed.

Lemma ownPairs_key (m : JsMap CalculatedOrderDetails) (p s : Z) :
  Forall (fun e => price (snd e) = fst e /\ size (snd e) <> 0) m ->
  In (p, s) (ownPairs m) -> In p (map_keys m).
Proof.
  intros Hall Hin.
  unfold ownPairs, map_values in Hin; rewrite map_map in Hin.
  apply in_map_iff in Hin as ([k level] & E & Hin).
  rewrite Forall_forall in Hall. destruct (Hall _ Hin) as [Hk _].
  simpl in *. injection E as <- _. rewrite Hk.
  apply (in_map fst m (k, level)), Hin.
Qed.

(** In a sound collection, the size found under a price and the pairs of the
    collection say the same. *)
Lemma sizeAt_In (m : JsMap CalculatedOrderDetails) (p s : Z) :
  entriesSound m -> (sizeAt p m = Some s <-> In (p, s) (ownPairs m)).
Proof.
  unfold sizeAt.
  induction m as [| [k level] m IH]; intros [Hnd Hall].
  - simpl; split; [discriminate | contradiction].
  - inversion Hnd as [| ? ? Hk Hnd']; subst.
    inversion Hall as [| ? ? [Hp Hs] Hall']; subst; simpl in Hp.
    change (ownPairs ((k, level) :: m))
      with ((price level, size level) :: ownPairs m).
    simpl map_get.
    destruct (Z.eqb_spec k p) as [-> | Hne]; simpl.
    + split.
      * intros E; injection E as <-; left; rewrite Hp; reflexivity.
      * intros [E | Hin]; [injection E as _ <-; reflexivity |].
        exfalso; apply Hk. exact (ownPairs_key m p s Hall' Hin).
    + rewrite (IH (conj Hnd' Hall')). split; [tauto |].
      intros [E | Hin]; [injection E as E _; congruence | exact Hin].
Qed.

(** Laying the same delta list over its own result changes no pair. *)
Lemma mergedSize_again (delta : list (Price * Size))
    (m m1 : JsMap CalculatedOrderDetails) (p s : Z) :
  entriesSound m1 ->
  (forall q t, In (q, t) (ownPairs m1) <-> t <> 0 /\ mergedSize q delta m = Some t) ->
  (s <> 0 /\ mergedSize p delta m1 = Some s
   <-> s <> 0 /\ mergedSize p delta m = Some s).
Proof.
  intros S1 H1. unfold mergedSize in *.
  specialize (H1 p s).
  destruct (lastSize p delta) as [s' |]; [tauto |].
  rewrite (sizeAt_In m1 p s S1). tauto.
Qed.

(** X16. A delta that is delivered a second time changes nothing: when a
    delta takes a [Connected] state whose maps hold no key twice to a state,
    the same delta takes that state to itself (same collections, cursors and
    scale). *)
Theorem delta_twice :
  forall (payload : DataUpdatePayload) (prev b : Book),
    NoDup (map_keys (asks prev)) ->
    NoDup (map_keys (bids prev)) ->
    handleDataUpdate payload (Connected prev) = Ok (Connected b) ->
    handleDataUpdate payload (Connected b) = Ok (Connected b).
Proof.
  intros payload prev b Ha Hb H.
  rewrite (delta_unfold payload prev Ha Hb) in H.
  apply bind_Ok_inv in H as (tb & Eb & H).
  apply bind_Ok_inv in H as (ta & Ea & H).
  injection H as <-.
  set (A := mergedAsks (upd_asks payload) (asks prev)) in *.
  set (B := mergedBids (upd_bids payload) (bids prev)) in *.
  pose proof (mergedAsks_wellFormed (upd_asks payload) _ Ha) as WA.
  pose proof (mergedBids_wellFormed (upd_bids payload) _ Hb) as WB.
  fold A in WA; fold B in WB.
  pose proof (wellFormedAsks_sound A WA) as SA.
  pose proof (wellFormedBids_sound B WB) as SB.
  assert (EA : mergedAsks (upd_asks payload) A = A).
  { destruct WA as [S1 R1].
    destruct (mergedAsks_wellFormed (upd_asks payload) A (proj1 SA)) as [S2 R2].
    apply (wellFormed_unique Z.lt); try assumption; [intros x y; lia |].
    intros [p s].
    rewrite (mergedAsks_pairs _ A p s (proj1 SA)).
    unfold A at 2; rewrite (mergedAsks_pairs _ _ p s Ha).
    apply mergedSize_again; [exact SA |].
    intros q t; apply mergedAsks_pairs, Ha. }
  assert (EB : mergedBids (upd_bids payload) B = B).
  { destruct WB as [S1 R1].
    destruct (mergedBids_wellFormed (upd_bids payload) B (proj1 SB)) as [S2 R2].
    apply (wellFormed_unique Z.gt); try assumption; [intros x y; lia |].
    intros [p s].
    rewrite (mergedBids_pairs _ B p s (proj1 SB)).
    unfold B at 2; rewrite (mergedBids_pairs _ _ p s Hb).
    apply mergedSize_again; [exact SB |].
    intros q t; apply mergedBids_pairs, Hb. }
  rewrite delta_unfold; [| exact (proj1 SA) | exact (proj1 SB)].
  cbn [asks bids productId numLevels maxTotal
       lastVisibleAsksIndex lastVisibleBidsIndex].
  rewrite EA, EB, Eb, Ea. reflexivity.
Qed.

Lemma delta_twice_witness :
  NoDup (map_keys (asks book8))
  /\ NoDup (map_keys (bids book8))
  /\ handleDataUpdate delta8 (Connected book8) = Ok (Connected book8_after)
  /\ handleDataUpdate delta8 (Connected book8_after) = Ok (Connected book8_after).
Proof.
  assert (Ha : NoDup (map_keys (asks book8))) by distinct_keys.
  assert (Hb : NoDup (map_keys (bids book8))) by distinct_keys.
  assert (H : handleDataUpdate delta8 (Connected book8) = Ok (Connected book8_after))
    by reflexivity.
  split; [exact Ha | split; [exact Hb | split; [exact H |]]].
  exact (delta_twice delta8 book8 book8_after Ha Hb H).
Defined.

(** ** Scale, rejection and restatement *)

(** X17. Whenever the reducer accepts a delta or a cursor update, the state
    it returns stores the scale the spec describes: the maximum of the asks
    total and the bids total at the clamped cursors. *)
Theorem accepted_update_sets_scale :
  forall (s : OrderBookState) (a : OrderBookActions) (b : Book),
    match a with
    | DataUpdate _ | UpdateBidsLastVisibleIndex _ | UpdateAsksLastVisibleIndex _ =>
        True
    | _ => False
    end ->
    orderBookReducer (Some s) a = Ok (Connected b) ->
    totalValue (maxTotal b) = specScaleValue b.
Proof.
  intros s a b Ha H.
  rewrite reducer_cases in H.
  destruct a; try contradiction;
    destruct s; try discriminate H.
  - exact (delta_sets_scale _ _ _ H).
  - exact (cursor_update_sets_scale _ _ _ _ H).
  - exact (cursor_update_sets_scale _ _ _ _ H).
Qed.

Lemma accepted_update_sets_scale_witness :
  True
  /\ orderBookReducer (Some (Connected book8)) (DataUpdate delta8)
     = Ok (Connected book8_after)
  /\ totalValue (maxTotal book8_after) = specScaleValue book8_after.
Proof.
  assert (H : orderBookReducer (Some (Connected book8)) (DataUpdate delta8)
              = Ok (Connected book8_after)) by reflexivity.
  split; [exact I | split; [exact H |]].
  exact (accepted_update_sets_scale (Connected book8) (DataUpdate delta8)
           book8_after I H).
Defined.

Lemma merged_empty_iff (m' : JsMap CalculatedOrderDetails)
    (delta : list (Price * Size)) (m : JsMap CalculatedOrderDetails) :
  (forall p s, In (p, s) (ownPairs m') <-> s <> 0 /\ mergedSize p delta m = Some s) ->
  (m' = [] <-> leavesNoLevel delta m).
Proof.
  intros Hmem; split.
  - intros -> p s E.
    destruct (Z.eq_dec s 0) as [Hs | Hs]; [exact Hs |].
    exfalso. exact (proj2 (Hmem p s) (conj Hs E)).
  - intros Hno. destruct m' as [| [k level] m']; [reflexivity |].
    exfalso.
    destruct (proj1 (Hmem (price level) (size level)) (or_introl eq_refl))
      as [Hs E].
    exact (Hs (Hno _ _ E)).
Qed.

(** X18. From a [Connected] state whose maps hold no key twice, a delta
    throws a [TypeError] exactly when it leaves a side without a level or a
    cursor is negative. For the bids side only the bids of the delta with a
    size other than 0 count, so a delta cannot empty a bids side that holds a
    level of size other than 0. *)
Theorem delta_throws_iff :
  forall (payload : DataUpdatePayload) (prev : Book),
    NoDup (map_keys (asks prev)) ->
    NoDup (map_keys (bids prev)) ->
    (handleDataUpdate payload (Connected prev) = Throw TypeError
     <-> leavesNoLevel (filter nonZero (upd_bids payload)) (bids prev)
         \/ lastVisibleBidsIndex (maxTotal prev) < 0
         \/ leavesNoLevel (upd_asks payload) (asks prev)
         \/ lastVisibleAsksIndex (maxTotal prev) < 0).
Proof.
  intros payload prev Ha Hb.
  rewrite (delta_unfold payload prev Ha Hb).
  rewrite <- (merged_empty_iff _ _ _
                (fun p s => mergedBids_pairs (upd_bids payload) (bids prev) p s Hb)).
  rewrite <- (merged_empty_iff _ _ _
                (fun p s => mergedAsks_pairs (upd_asks payload) (asks prev) p s Ha)).
  set (A := mergedAsks (upd_asks payload) (asks prev)).
  set (B := mergedBids (upd_bids payload) (bids prev)).
  pose proof (totalAt_throws B (lastVisibleBidsIndex (maxTotal prev))) as Tb.
  pose proof (totalAt_throws A (lastVisibleAsksIndex (maxTotal prev))) as Ta.
  destruct (totalAt_outcome B (lastVisibleBidsIndex (maxTotal prev)))
    as [Eb | (tb & Eb)]; rewrite Eb in *; simpl.
  - split; [intros _ | reflexivity].
    destruct (proj1 Tb eq_refl); tauto.
  - destruct (totalAt_outcome A (lastVisibleAsksIndex (maxTotal prev)))
      as [Ea | (ta & Ea)]; rewrite Ea in *; simpl.
    + split; [intros _ | reflexivity].
      destruct (proj1 Ta eq_refl); tauto.
    + split; [discriminate |].
      intros [H | [H | [H | H]]].
      * apply (fun x => proj2 Tb (or_introl x)) in H; discriminate H.
      * apply (fun x => proj2 Tb (or_intror x)) in H; discriminate H.
      * apply (fun x => proj2 Ta (or_introl x)) in H; discriminate H.
      * apply (fun x => proj2 Ta (or_intror x)) in H; discriminate H.
Qed.

Lemma delta_throws_iff_witness :
  NoDup (map_keys (asks book8))
  /\ NoDup (map_keys (bids book8))
  /\ (handleDataUpdate (mkDelta [(100, 0); (101, 0)] [(99, 0); (98, 0)])
        (Connected book8) = Throw TypeError
      <-> leavesNoLevel
            (filter nonZero
               (upd_bids (mkDelta [(100, 0); (101, 0)] [(99, 0); (98, 0)])))
            (bids book8)
          \/ lastVisibleBidsIndex (maxTotal book8) < 0
          \/ leavesNoLevel
               (upd_asks (mkDelta [(100, 0); (101, 0)] [(99, 0); (98, 0)]))
               (asks book8)
          \/ lastVisibleAsksIndex (maxTotal book8) < 0).
Proof.
  assert (Ha : NoDup (map_keys (asks book8))) by distinct_keys.
  assert (Hb : NoDup (map_keys (bids book8))) by distinct_keys.
  split; [exact Ha | split; [exact Hb |]].
  exact (delta_throws_iff (mkDelta [(100, 0); (101, 0)] [(99, 0); (98, 0)])
           book8 Ha Hb).
Defined.

(** X19. A cursor update forgets the value the same cursor had: two updates
    of the bids cursor in a row either throw at the first, or end as the
    second alone would; the same holds for the asks cursor. *)
Theorem cursor_update_overrides :
  forall (prev : Book) (i j : Z),
    dispatchAll (Connected prev)
      [UpdateBidsLastVisibleIndex i; UpdateBidsLastVisibleIndex j]
    = match orderBookReducer (Some (Connected prev)) (UpdateBidsLastVisibleIndex i) with
      | Ok _ => orderBookReducer (Some (Connected prev)) (UpdateBidsLastVisibleIndex j)
      | Throw e => Throw e
      end
    /\ dispatchAll (Connected prev)
         [UpdateAsksLastVisibleIndex i; UpdateAsksLastVisibleIndex j]
       = match orderBookReducer (Some (Connected prev)) (UpdateAsksLastVisibleIndex i) with
         | Ok _ => orderBookReducer (Some (Connected prev)) (UpdateAsksLastVisibleIndex j)
         | Throw e => Throw e
         end.
Proof.
  intros prev i j; split; cbn [dispatchAll]; rewrite !reducer_cases;
    unfold handleUpdateLastVisibleBidsIndexChange,
           handleUpdateLastVisibleAsksIndexChange,
           handleLastVisibleItemIndexChange;
    cbn [assert is_Connected bind].
  - destruct (totalAt (bids prev) i); cbn [bind]; [| reflexivity].
    destruct (totalAt (asks prev) (lastVisibleAsksIndex (maxTotal prev)))
      eqn:Ea; cbn [bind]; [| reflexivity].
    rewrite reducer_cases.
    unfold handleUpdateLastVisibleBidsIndexChange,
           handleLastVisibleItemIndexChange;
      cbn [assert is_Connected bind asks bids maxTotal lastVisibleAsksIndex
           productId numLevels].
    destruct (totalAt (bids prev) j); cbn [bind]; [| reflexivity].
    rewrite Ea; reflexivity.
  - destruct (totalAt (bids prev) (lastVisibleBidsIndex (maxTotal prev)))
      eqn:Eb; cbn [bind]; [| reflexivity].
    destruct (totalAt (asks prev) i); cbn [bind]; [| reflexivity].
    rewrite reducer_cases.
    unfold handleUpdateLastVisibleAsksIndexChange,
           handleLastVisibleItemIndexChange;
      cbn [assert is_Connected bind asks bids maxTotal lastVisibleBidsIndex
           productId numLevels].
    rewrite Eb; cbn [bind].
    destruct (totalAt (asks prev) j); reflexivity.
Qed.

Lemma mergedSize_restated (delta : list (Price * Size))
    (m : JsMap CalculatedOrderDetails) (p : Price) :
  entriesSound m ->
  Forall (fun e => In e (ownPairs m)) delta ->
  mergedSize p delta m = sizeAt p m.
Proof.
  intros Sm Hd. unfold mergedSize.
  destruct (lastSize p delta) as [s' |] eqn:E; [| reflexivity].
  apply lastSize_In in E. rewrite Forall_forall in Hd.
  symmetry; apply (sizeAt_In m p s' Sm), Hd, E.
Qed.

Lemma ownPairs_sizes (m : JsMap CalculatedOrderDetails) (p s : Z) :
  entriesSound m -> In (p, s) (ownPairs m) -> s <> 0.
Proof.
  intros [_ Hall] Hin.
  unfold ownPairs, map_values in Hin; rewrite map_map in Hin.
  apply in_map_iff in Hin as (e & E & Hin).
  rewrite Forall_forall in Hall. destruct (Hall _ Hin) as [_ Hs].
  injection E as _ <-; exact Hs.
Qed.

Lemma restated_pairs_keep (delta : list (Price * Size))
    (m m' : JsMap CalculatedOrderDetails) :
  entriesSound m ->
  Forall (fun e => In e (ownPairs m)) delta ->
  (forall p s, In (p, s) (ownPairs m') <-> s <> 0 /\ mergedSize p delta m = Some s) ->
  forall e, In e (ownPairs m') <-> In e (ownPairs m).
Proof.
  intros Sm Hd Hmem [p s].
  rewrite Hmem, (mergedSize_restated delta m p Sm Hd), (sizeAt_In m p s Sm).
  split; [tauto |].
  intros Hin; split; [exact (ownPairs_sizes m p s Sm Hin) | exact Hin].
Qed.

(** X20. A delta that only names prices with the sizes they already have,
    in any order, any number of times, on any part of the book (none at all
    included), leaves both collections of a well-formed book as they are
    whenever it is accepted. *)
Theorem delta_of_current_sizes :
  forall (payload : DataUpdatePayload) (prev b : Book),
    wellFormedAsks (asks prev) ->
    wellFormedBids (bids prev) ->
    Forall (fun e => In e (ownPairs (asks prev))) (upd_asks payload) ->
    Forall (fun e => In e (ownPairs (bids prev))) (upd_bids payload) ->
    handleDataUpdate payload (Connected prev) = Ok (Connected b) ->
    asks b = asks prev /\ bids b = bids prev.
Proof.
  intros payload prev b Wa Wb Da Db H.
  pose proof (wellFormedAsks_sound _ Wa) as Sa.
  pose proof (wellFormedBids_sound _ Wb) as Sb.
  rewrite (delta_unfold payload prev (proj1 Sa) (proj1 Sb)) in H.
  apply bind_Ok_inv in H as (tb & _ & H).
  apply bind_Ok_inv in H as (ta & _ & H).
  injection H as <-. cbn [asks bids].
  split.
  - destruct Wa as [S1 R1].
    destruct (mergedAsks_wellFormed (upd_asks payload) _ (proj1 Sa)) as [S2 R2].
    apply (wellFormed_unique Z.lt); try assumption; [intros x y; lia |].
    apply (restated_pairs_keep (upd_asks payload)); [exact Sa | exact Da |].
    intros p s; apply mergedAsks_pairs, (proj1 Sa).
  - destruct Wb as [S1 R1].
    destruct (mergedBids_wellFormed (upd_bids payload) _ (proj1 Sb)) as [S2 R2].
    apply (wellFormed_unique Z.gt); try assumption; [intros x y; lia |].
    apply (restated_pairs_keep (filter nonZero (upd_bids payload)));
      [exact Sb | | intros p s; apply mergedBids_pairs, (proj1 Sb)].
    rewrite Forall_forall in *; intros e He.
    apply Db, (proj1 (filter_In nonZero e _)), He.
Qed.

Lemma delta_of_current_sizes_witness :
  wellFormedAsks (asks book8)
  /\ wellFormedBids (bids book8)
  /\ Forall (fun e => In e (ownPairs (asks book8)))
       (upd_asks (mkDelta [(101, 2); (101, 2)] []))
  /\ Forall (fun e => In e (ownPairs (bids book8)))
       (upd_bids (mkDelta [(101, 2); (101, 2)] []))
  /\ handleDataUpdate (mkDelta [(101, 2); (101, 2)] []) (Connected book8)
     = Ok (Connected book8)
  /\ asks book8 = asks book8 /\ bids book8 = bids book8.
Proof.
  assert (Wa : wellFormedAsks (asks book8)).
  { split; [strictly_sorted | simpl; repeat split; lia]. }
  assert (Wb : wellFormedBids (bids book8)).
  { split; [strictly_sorted | simpl; repeat split; lia]. }
  assert (Da : Forall (fun e => In e (ownPairs (asks book8)))
                 (upd_asks (mkDelta [(101, 2); (101, 2)] [])))
    by (repeat constructor; simpl; tauto).
  assert (Db : Forall (fun e => In e (ownPairs (bids book8)))
                 (upd_bids (mkDelta [(101, 2); (101, 2)] [])))
    by constructor.
  assert (H : handleDataUpdate (mkDelta [(101, 2); (101, 2)] []) (Connected book8)
              = Ok (Connected book8)) by reflexivity.
  split; [exact Wa | split; [exact Wb | split; [exact Da | split; [exact Db |
    split; [exact H |]]]]].
  exact (delta_of_current_sizes _ book8 book8 Wa Wb Da Db H).
Defined.
